(** * Sentiment analyzer: API service, UI client and process launcher

    A shallow embedding of [backend/main.py], [frontend/app.py] and
    [start_app.py].  Python strings are sequences of Unicode code points;
    the character tables of the interpreter are an interface
    ([UnicodeData]); HTTP traffic, logging and child processes are made
    explicit as a world that the embedded functions thread through. *)

From Stdlib Require Import List Bool NArith ZArith Lia String Ascii.
Import ListNotations.

Set Warnings "-register-all".
Local Open Scope Z_scope.

(** ** Python strings *)

Module PyStr.

(** A [str] is a sequence of code points. *)
Definition pystr := list N.

(** An ASCII literal of the source text. *)
Definition py (s : string) : pystr :=
  List.map N_of_ascii (list_ascii_of_string s).

Definition eqb (a b : pystr) : bool :=
  if list_eq_dec N.eq_dec a b then true else false.

(** [x in xs] for a list of strings. *)
Definition mem (x : pystr) (xs : list pystr) : bool := existsb (eqb x) xs.

(** [s.startswith(p)] *)
Fixpoint startswith (s p : pystr) : bool :=
  match p, s with
  | [], _ => true
  | _ :: _, [] => false
  | a :: p', b :: s' => N.eqb a b && startswith s' p'
  end.

(** [needle in hay] for two strings: some suffix of [hay] starts with
    [needle]. *)
Fixpoint contains (needle hay : pystr) : bool :=
  startswith hay needle ||
  match hay with
  | [] => false
  | _ :: rest => contains needle rest
  end.

Fixpoint dropwhile (p : N -> bool) (s : pystr) : pystr :=
  match s with
  | [] => []
  | c :: r => if p c then dropwhile p r else s
  end.

(** [s.split(sep)] for a separator of one character: the pieces between
    the occurrences of [sep], never an empty list. *)
Fixpoint split (sep : N) (s : pystr) : list pystr :=
  match s with
  | [] => [[]]
  | c :: r =>
      if N.eqb c sep then [] :: split sep r
      else match split sep r with
           | [] => [[c]]
           | h :: t => (c :: h) :: t
           end
  end.

Definition LF : N := 10.

(** The tables of the interpreter's Unicode database that [strip],
    [lower] and [title] read. *)
Class UnicodeData := {
  is_space : N -> bool;            (* Py_UNICODE_ISSPACE *)
  is_cased : N -> bool;            (* _PyUnicode_IsCased *)
  is_case_ignorable : N -> bool;   (* _PyUnicode_IsCaseIgnorable *)
  to_lower_full : N -> pystr;      (* _PyUnicode_ToLowerFull *)
  to_title_full : N -> pystr       (* _PyUnicode_ToTitleFull *)
}.

Section Methods.
Context {U : UnicodeData}.

Definition lstrip (s : pystr) : pystr := dropwhile is_space s.
Definition rstrip (s : pystr) : pystr := rev (dropwhile is_space (rev s)).

(** [s.strip()] *)
Definition strip (s : pystr) : pystr := rstrip (lstrip s).

Definition CAPITAL_SIGMA : N := 931.   (* U+03A3 *)
Definition FINAL_SIGMA : N := 962.     (* U+03C2 *)
Definition SMALL_SIGMA : N := 963.     (* U+03C3 *)

(** The nearest character that is not case-ignorable is cased. *)
Definition next_is_cased (s : pystr) : bool :=
  match find (fun c => negb (is_case_ignorable c)) s with
  | Some c => is_cased c
  | None => false
  end.

(** [before] is the text to the left of the sigma, nearest first. *)
Definition handle_capital_sigma (before after : pystr) : N :=
  if next_is_cased before && negb (next_is_cased after)
  then FINAL_SIGMA else SMALL_SIGMA.

Definition lower_ucs4 (before : pystr) (c : N) (after : pystr) : pystr :=
  if N.eqb c CAPITAL_SIGMA then [handle_capital_sigma before after]
  else to_lower_full c.

Fixpoint do_lower (before s : pystr) : pystr :=
  match s with
  | [] => []
  | c :: r => lower_ucs4 before c r ++ do_lower (c :: before) r
  end.

(** [s.lower()] *)
Definition lower (s : pystr) : pystr := do_lower [] s.

Fixpoint do_title (previous_is_cased : bool) (before s : pystr) : pystr :=
  match s with
  | [] => []
  | c :: r =>
      (if previous_is_cased then lower_ucs4 before c r else to_title_full c)
      ++ do_title (is_cased c) (c :: before) r
  end.

(** [s.title()] *)
Definition title (s : pystr) : pystr := do_title false [] s.

End Methods.

(** The Basic Latin block (U+0000..U+007F) of the database.  Above it the
    tables here treat every character as an uncased non-space, so this
    instance stands for the interpreter on ASCII text only. *)
Definition between (lo hi c : N) : bool := N.leb lo c && N.leb c hi.

Definition basic_latin : UnicodeData := {|
  is_space c := between 9 13 c || between 28 32 c;
  is_cased c := between 65 90 c || between 97 122 c;
  is_case_ignorable c :=
    existsb (N.eqb c) [39; 46; 58; 94; 96]%N;
  to_lower_full c := if between 65 90 c then [c + 32]%N else [c];
  to_title_full c := if between 97 122 c then [c - 32]%N else [c]
|}.

End PyStr.
Import PyStr.


(** ** Values decoded from JSON, exceptions *)

(** A Python number: an [int], or a [float] given by its binary64 bit
    pattern. *)
Inductive number :=
| PyInt (z : Z)
| PyFloat (bits : Z).

(** What [json.loads] builds; a [dict] is kept as its items in insertion
    order and read by key. *)
Inductive json :=
| JNull
| JBool (b : bool)
| JNum (n : number)
| JStr (s : pystr)
| JArr (items : list json)
| JObj (fields : list (pystr * json)).

Fixpoint lookup (key : pystr) (fields : list (pystr * json)) : option json :=
  match fields with
  | [] => None
  | (k, v) :: rest => if eqb k key then Some v else lookup key rest
  end.

(** The subclasses of [requests.exceptions.RequestException] that the
    handlers tell apart. *)
Inductive request_error :=
| ReqConnectionError
| ReqConnectTimeout        (* both a ConnectionError and a Timeout *)
| ReqReadTimeout
| ReqJSONDecodeError
| ReqOther.

Inductive exn :=
| HTTPException (status_code : Z) (detail : pystr)
| RequestException (kind : request_error)
| KeyError (key : pystr)
| TypeError
| AttributeError
| IndexError
| ValueError
| OSError
| TimeoutExpired.

Definition is_TimeoutExpired (e : exn) : bool :=
  match e with TimeoutExpired => true | _ => false end.

Definition is_RequestException (e : exn) : bool :=
  match e with RequestException _ => true | _ => false end.

Definition is_Timeout (e : exn) : bool :=
  match e with
  | RequestException (ReqConnectTimeout | ReqReadTimeout) => true
  | _ => false
  end.

Definition is_ConnectionError (e : exn) : bool :=
  match e with
  | RequestException (ReqConnectionError | ReqConnectTimeout) => true
  | _ => false
  end.

(** [v[key]] for a string key. *)
Definition getitem (v : json) (key : pystr) : exn + json :=
  match v with
  | JObj fields =>
      match lookup key fields with
      | Some x => inr x
      | None => inl (KeyError key)
      end
  | _ => inl TypeError
  end.

(** [v.get(key, default)] *)
Definition dict_get (v : json) (key : pystr) (default : json) : exn + json :=
  match v with
  | JObj fields =>
      match lookup key fields with
      | Some x => inr x
      | None => inr default
      end
  | _ => inl AttributeError
  end.

(** [key in v] *)
Definition has_key (key : pystr) (fields : list (pystr * json)) : bool :=
  match lookup key fields with Some _ => true | None => false end.

(** A method of [str] called on a decoded value. *)
Definition str_method {A : Type} (f : pystr -> A) (v : json) : exn + A :=
  match v with
  | JStr s => inr (f s)
  | _ => inl AttributeError
  end.

(** [xs[i]] on a list. *)
Definition list_index {A : Type} (xs : list A) (i : nat) : exn + A :=
  match nth_error xs i with
  | Some x => inr x
  | None => inl IndexError
  end.

(** What [for x in v] runs over. *)
Definition iterate (v : json) : exn + list json :=
  match v with
  | JArr items => inr items
  | JStr s => inr (List.map (fun c => JStr [c]) s)
  | JObj fields => inr (List.map (fun kv => JStr (fst kv)) fields)
  | _ => inl TypeError
  end.

(** ** State and exceptions

    A computation runs in a world, returns a value or raises, and leaves
    the world with whatever it did before raising. *)

Definition M (W A : Type) : Type := W -> (exn + A) * W.

Definition ret {W A : Type} (a : A) : M W A := fun w => (inr a, w).

Definition raise {W A : Type} (e : exn) : M W A := fun w => (inl e, w).

Definition bind {W A B : Type} (c : M W A) (k : A -> M W B) : M W B :=
  fun w =>
    match c w with
    | (inr a, w') => k a w'
    | (inl e, w') => (inl e, w')
    end.

(** [try: c  except Exception as e: h e] *)
Definition try_except {W A : Type} (c : M W A) (h : exn -> M W A) : M W A :=
  fun w =>
    match c w with
    | (inr a, w') => (inr a, w')
    | (inl e, w') => h e w'
    end.

(** [try: c  except E as e: h e] for a class [E] of exceptions given by
    [is_E]; any other exception goes on. *)
Definition try_except_if {W A : Type} (is_E : exn -> bool)
    (c : M W A) (h : exn -> M W A) : M W A :=
  try_except c (fun e => if is_E e then h e else raise e).

(** A pure step that may raise. *)
Definition lift {W A : Type} (r : exn + A) : M W A := fun w => (r, w).

Declare Scope py_scope.
Delimit Scope py_scope with py_do.
Notation "x <- c ;; k" := (bind c (fun x => k))
  (at level 61, c at next level, right associativity) : py_scope.
Notation "c ;;; k" := (bind c (fun _ => k))
  (at level 61, right associativity) : py_scope.
Local Open Scope py_scope.

(** ** HTTP and the world of the two services *)

Inductive http_method := GET | POST.

Inductive req_body :=
| NoBody
| JsonBody (payload : json)                  (* json=... *)
| FormBody (fields : list (pystr * pystr)).  (* data=... *)

Record request := mkRequest {
  meth : http_method;
  url : pystr;
  body : req_body;
  timeout : Z
}.

(** A response: its status and what [response.json()] gives. *)
Record response := mkResponse {
  status_code : Z;
  json_result : exn + json
}.

Inductive log_record :=
| LogOllamaStatus (status : Z)                     (* logger.error, line 64 *)
| LogRequestFailed (e : exn)                       (* logger.error, line 94 *)
| LogUnexpected (e : exn)                          (* logger.error, line 100 *)
| LogAnalyzed (text50 : pystr) (sentiment : pystr). (* logger.info, line 85 *)

(** What the page shows. *)
Inductive style := sentiment_positive | sentiment_negative | sentiment_neutral.

Inductive ui_error :=
| PleaseEnterText
| ErrorDetail (detail : json)
| RequestTimedOut
| CannotConnect
| UnexpectedError (e : exn).

Inductive ui_event :=
| UiError (what : ui_error)
| UiSuccess
| UiSentiment (css : style) (sentiment : pystr)
| UiDetails (text_length : nat) (raw_response : option json).

(** The peers answer a request as a function of the requests sent so far
    and the request itself; [sent], [logged] and [shown] grow as the code
    runs. *)
Record world := mkWorld {
  net : list request -> request -> exn + response;
  sent : list request;
  logged : list log_record;
  shown : list ui_event
}.

Definition send (r : request) : M world response :=
  fun w =>
    (net w (sent w) r,
     mkWorld (net w) (sent w ++ [r]) (logged w) (shown w)).

Definition requests_post (u : pystr) (b : req_body) (t : Z) : M world response :=
  send (mkRequest POST u b t).

Definition requests_get (u : pystr) (t : Z) : M world response :=
  send (mkRequest GET u NoBody t).

Definition response_json (r : response) : M world json := lift (json_result r).

Definition log (l : log_record) : M world unit :=
  fun w => (inr tt, mkWorld (net w) (sent w) (logged w ++ [l]) (shown w)).

Definition show (e : ui_event) : M world unit :=
  fun w => (inr tt, mkWorld (net w) (sent w) (logged w) (shown w ++ [e])).

(** [not s] for a string. *)
Definition falsy (s : pystr) : bool :=
  match s with [] => true | _ :: _ => false end.

Definition QUOTE : N := 34.

(** ** backend/main.py *)

Module Backend.
Section WithUnicode.
Context {U : UnicodeData}.

Definition OLLAMA_GENERATE : pystr := py "http://localhost:11434/api/generate".
Definition OLLAMA_TAGS : pystr := py "http://localhost:11434/api/tags".

(** The f-string of lines 41-45. *)
Definition prompt_of (text : pystr) : pystr :=
  py "Analyze the sentiment of the following text and respond with exactly one word: Positive, Negative, or Neutral."
  ++ [LF; LF] ++ py "Text: " ++ [QUOTE] ++ text ++ [QUOTE]
  ++ [LF; LF] ++ py "Sentiment:".

(** The [json=] argument of lines 50-59; 0.1 and 0.9 by their bits. *)
Definition generate_payload (prompt : pystr) : json :=
  JObj [ (py "model", JStr (py "mistral"));
         (py "prompt", JStr prompt);
         (py "stream", JBool false);
         (py "options",
          JObj [ (py "temperature", JNum (PyFloat 0x3FB999999999999A));
                 (py "top_p", JNum (PyFloat 0x3FECCCCCCCCCCCCD));
                 (py "num_predict", JNum (PyInt 10)) ]) ].

(** The dict returned at lines 87-91. *)
Record analysis := mkAnalysis {
  sentiment : pystr;
  text : pystr;
  raw_response : pystr
}.

Definition to_fields (a : analysis) : list (pystr * json) :=
  [ (py "sentiment", JStr (sentiment a));
    (py "text", JStr (text a));
    (py "raw_response", JStr (raw_response a)) ].

Definition to_json (a : analysis) : json := JObj (to_fields a).

Definition valid_sentiments : list pystr :=
  [py "Positive"; py "Negative"; py "Neutral"].

(** Lines 77-83: the label found in a reply that is not one of the three. *)
Definition extract_sentiment (sentiment_clean : pystr) : pystr :=
  let sentiment_lower := lower sentiment_clean in
  if contains (py "positive") sentiment_lower then py "Positive"
  else if contains (py "negative") sentiment_lower then py "Negative"
  else py "Neutral".

(** Lines 71-83, from [sentiment_raw] to the final [sentiment_clean]. *)
Definition clean_sentiment (sentiment_raw : pystr) : exn + pystr :=
  match list_index (split LF sentiment_raw) 0 with
  | inl e => inl e
  | inr first_line =>
      let sentiment_clean := title (strip first_line) in
      if negb (mem sentiment_clean valid_sentiments)
      then inr (extract_sentiment sentiment_clean)
      else inr sentiment_clean
  end.

(** Lines 39-91, the body of the [try]. *)
Definition analyze_body (text : pystr) : M world analysis :=
  let prompt := prompt_of text in
  response <- requests_post OLLAMA_GENERATE (JsonBody (generate_payload prompt)) 30 ;;
  (if negb (Z.eqb (status_code response) 200)
   then log (LogOllamaStatus (status_code response)) ;;;
        raise (HTTPException 500 (py "Failed to connect to Ollama service"))
   else ret tt) ;;;
  result <- response_json response ;;
  reply <- lift (getitem result (py "response")) ;;
  sentiment_raw <- lift (str_method strip reply) ;;
  sentiment_clean <- lift (clean_sentiment sentiment_raw) ;;
  log (LogAnalyzed (firstn 50%nat text) sentiment_clean) ;;;
  ret (mkAnalysis sentiment_clean text sentiment_raw).

(** The two handlers of lines 93-101, tried in this order. *)
Definition analyze_handlers (e : exn) : M world analysis :=
  if is_RequestException e
  then log (LogRequestFailed e) ;;;
       raise (HTTPException 500
         (py "Could not connect to Ollama service. Make sure Ollama is running and Mistral model is available."))
  else log (LogUnexpected e) ;;;
       raise (HTTPException 500 (py "An unexpected error occurred")).

(** [POST /analyze/] *)
Definition analyze_sentiment (text : pystr) : M world analysis :=
  if falsy (strip text)
  then raise (HTTPException 400 (py "Text cannot be empty"))
  else try_except (analyze_body text) analyze_handlers.

(** The dict of [GET /health/]. *)
Record health := mkHealth {
  api_status : pystr;
  ollama_status : pystr;
  mistral_available : bool;
  error : option exn            (* the key is absent unless the ping failed *)
}.

(** [any(model["name"].startswith("mistral") for model in models)]: stops
    at the first hit, raises at the first model it cannot read. *)
Fixpoint any_mistral (models : list json) : exn + bool :=
  match models with
  | [] => inr false
  | model :: rest =>
      match getitem model (py "name") with
      | inl e => inl e
      | inr name =>
          match str_method (fun s => startswith s (py "mistral")) name with
          | inl e => inl e
          | inr true => inr true
          | inr false => any_mistral rest
          end
      end
  end.

(** [GET /health/] *)
Definition health_check : M world health :=
  try_except
    (response <- requests_get OLLAMA_TAGS 5 ;;
     if Z.eqb (status_code response) 200
     then models <- response_json response ;;
          listed <- lift (getitem models (py "models")) ;;
          items <- lift (iterate listed) ;;
          found <- lift (any_mistral items) ;;
          ret (mkHealth (py "healthy") (py "connected") found None)
     else ret (mkHealth (py "healthy") (py "error") false None))
    (fun e => ret (mkHealth (py "healthy") (py "disconnected") false (Some e))).

End WithUnicode.
End Backend.

(** ** frontend/app.py *)

Module Frontend.
Section WithUnicode.
Context {U : UnicodeData}.

Definition BACKEND_ANALYZE : pystr := py "http://localhost:8000/analyze/".

(** Lines 145-165: the class of the block the label is shown in. *)
Definition css_of (sentiment_lower : pystr) : style :=
  if eqb sentiment_lower (py "positive") then sentiment_positive
  else if eqb sentiment_lower (py "negative") then sentiment_negative
  else sentiment_neutral.

(** Lines 137-173, a response with status 200.  The processing time and
    the clock of the details are not part of the events. *)
Definition show_result (text_input : pystr) (response : response) : M world unit :=
  result <- response_json response ;;
  sentiment <- lift (dict_get result (py "sentiment") (JStr (py "Unknown"))) ;;
  show UiSuccess ;;;
  sentiment_lower <- lift (str_method lower sentiment) ;;
  match sentiment, result with
  | JStr label, JObj fields =>
      show (UiSentiment (css_of sentiment_lower) label) ;;;
      show (UiDetails (List.length text_input) (lookup (py "raw_response") fields))
  | _, _ => raise AttributeError
  end.

(** Lines 175-176, any other status. *)
Definition show_failure (response : response) : M world unit :=
  result <- response_json response ;;
  error_detail <- lift (dict_get result (py "detail") (JStr (py "Unknown error"))) ;;
  show (UiError (ErrorDetail error_detail)).

(** Lines 178-183, tried in this order. *)
Definition analyze_handlers (e : exn) : M world unit :=
  if is_Timeout e then show (UiError RequestTimedOut)
  else if is_ConnectionError e then show (UiError CannotConnect)
  else show (UiError (UnexpectedError e)).

(** Lines 121-183: what a click on the analyze button does. *)
Definition analyze_button (text_input : pystr) : M world unit :=
  if falsy (strip text_input)
  then show (UiError PleaseEnterText)
  else
    try_except
      (response <- requests_post BACKEND_ANALYZE
                     (FormBody [(py "text", text_input)]) 45 ;;
       if Z.eqb (status_code response) 200
       then show_result text_input response
       else show_failure response)
      analyze_handlers.

End WithUnicode.
End Frontend.

(** ** start_app.py

    The launcher talks to the operating system: every call it makes is
    recorded, and the system answers a call as a function of the calls
    made before it.  Console output is left out.  The handlers of line
    250 are in place from the start of [run]: a signal is taken to arrive
    while the launcher sleeps or waits for an answer of the user, and the
    handler then runs to its end. *)

Module Launcher.

Inductive child := backend | frontend.

Inductive call :=
| PathExists (path : pystr)
| ImportPackages
| Input
| Popen (c : child) (new_process_group : bool)
| Sleep (seconds : Z)
| Poll (c : child)
| Communicate (c : child)
| Terminate (c : child)                 (* SIGTERM *)
| SendCtrlBreak (c : child)             (* send_signal(CTRL_BREAK_EVENT) *)
| Wait (c : child) (timeout : option Z)
| Kill (c : child)
| HttpGet (url : pystr) (timeout : Z).

(** How [input()] ends without an answer. *)
Inductive interruption :=
| Failed (e : exn)          (* it raised *)
| Interrupted.              (* SIGINT or SIGTERM arrived *)

Record os := mkOs {
  windows : bool;                                   (* platform.system() == "Windows" *)
  path_exists : list call -> pystr -> bool;
  importable : list call -> bool;
  input_result : list call -> interruption + pystr;
  popen_result : list call -> child -> option exn;  (* None: spawned *)
  running_result : list call -> child -> bool;      (* poll() is None *)
  communicate_result : list call -> child -> option exn;
  signal_result : list call -> child -> option exn;
  wait_result : list call -> child -> option Z -> option exn;
  kill_result : list call -> child -> option exn;
  get_result : list call -> pystr -> Z -> exn + response;
  signalled : list call -> bool                     (* SIGINT or SIGTERM during this sleep *)
}.

(** The fields of [AppStarter]; a process field is [None] or a [Popen]. *)
Record AppStarter := mkAppStarter {
  backend_process : bool;
  frontend_process : bool;
  running : bool
}.

Record world := mkWorld {
  sys : os;
  calls : list call;
  self : AppStarter
}.

Definition init (o : os) : world :=
  mkWorld o [] (mkAppStarter false false true).

(** One call: recorded, answered from the calls before it. *)
Definition ask {A : Type} (c : call) (answer : os -> list call -> exn + A) : M world A :=
  fun w => (answer (sys w) (calls w), mkWorld (sys w) (calls w ++ [c]) (self w)).

Definition unit_or_raise (r : option exn) : exn + unit :=
  match r with None => inr tt | Some e => inl e end.

Definition exists_ (path : pystr) : M world bool :=
  ask (PathExists path) (fun o h => inr (path_exists o h path)).
Definition import_packages : M world bool :=
  ask ImportPackages (fun o h => inr (importable o h)).
Definition popen (c : child) : M world unit :=
  fun w => ask (Popen c (windows (sys w)))
               (fun o h => unit_or_raise (popen_result o h c)) w.
Definition poll_is_None (c : child) : M world bool :=
  ask (Poll c) (fun o h => inr (running_result o h c)).
Definition communicate (c : child) : M world unit :=
  ask (Communicate c) (fun o h => unit_or_raise (communicate_result o h c)).
Definition wait (c : child) (timeout : option Z) : M world unit :=
  ask (Wait c timeout) (fun o h => unit_or_raise (wait_result o h c timeout)).
Definition kill (c : child) : M world unit :=
  ask (Kill c) (fun o h => unit_or_raise (kill_result o h c)).
Definition requests_get (u : pystr) (t : Z) : M world response :=
  ask (HttpGet u t) (fun o h => get_result o h u t).

(** Lines 201-206: the graceful signal of the platform. *)
Definition graceful (c : child) : M world unit :=
  fun w =>
    (if windows (sys w)
     then ask (SendCtrlBreak c) (fun o h => unit_or_raise (signal_result o h c))
     else ask (Terminate c) (fun o h => unit_or_raise (signal_result o h c))) w.

Definition get_self : M world AppStarter := fun w => (inr (self w), w).
Definition set_self (a : AppStarter) : M world unit :=
  fun w => (inr tt, mkWorld (sys w) (calls w) a).

Definition process_of (c : child) (a : AppStarter) : bool :=
  match c with backend => backend_process a | frontend => frontend_process a end.

Definition set_process (c : child) : M world unit :=
  a <- get_self ;;
  match c with
  | backend => set_self (mkAppStarter true (frontend_process a) (running a))
  | frontend => set_self (mkAppStarter (backend_process a) true (running a))
  end.

Definition OLLAMA_TAGS : pystr := py "http://localhost:11434/api/tags".
Definition BACKEND_ROOT : pystr := py "http://localhost:8000/".

(** One round of the loop of lines 183-191, the sleep apart. *)
Definition backend_answers : M world bool :=
  try_except
    (response <- requests_get BACKEND_ROOT 2 ;;
     ret (Z.eqb (status_code response) 200))
    (fun _ => ret false).

(** Lines 200-219, and 223-242 for the other process. *)
Definition stop_process (c : child) : M world unit :=
  try_except
    (graceful c ;;;
     try_except_if is_TimeoutExpired
       (wait c (Some 5))
       (fun _ => kill c ;;; wait c None))
    (fun _ => try_except (kill c) (fun _ => ret tt)).

(** Lines 196-242 *)
Definition stop_services : M world unit :=
  a <- get_self ;;
  (if backend_process a then stop_process backend else ret tt) ;;;
  (if frontend_process a then stop_process frontend else ret tt).

(** *** Leaving through [sys.exit]

    A computation of the launcher returns, raises an exception, or leaves
    through [sys.exit], which no [except Exception] catches. *)

Inductive halt :=
| Raise (e : exn)
| Exit (code : Z).

Definition L (A : Type) : Type := world -> (halt + A) * world.

Definition done {A : Type} (a : A) : L A := fun w => (inr a, w).

Definition throw {A : Type} (e : exn) : L A := fun w => (inl (Raise e), w).

Definition sys_exit {A : Type} (code : Z) : L A := fun w => (inl (Exit code), w).

Definition and_then {A B : Type} (c : L A) (k : A -> L B) : L B :=
  fun w =>
    match c w with
    | (inr a, w') => k a w'
    | (inl h, w') => (inl h, w')
    end.

(** [try: c  except Exception as e: h e] *)
Definition except_Exception {A : Type} (c : L A) (h : exn -> L A) : L A :=
  fun w =>
    match c w with
    | (inl (Raise e), w') => h e w'
    | (r, w') => (r, w')
    end.

(** A step during which no signal is taken to arrive. *)
Definition plain {A : Type} (c : M world A) : L A :=
  fun w =>
    match c w with
    | (inr a, w') => (inr a, w')
    | (inl e, w') => (inl (Raise e), w')
    end.

Declare Scope launch_scope.
Notation "x <- c ;; k" := (and_then c (fun x => k))
  (at level 61, c at next level, right associativity) : launch_scope.
Notation "c ;;; k" := (and_then c (fun _ => k))
  (at level 61, right associativity) : launch_scope.
Local Open Scope launch_scope.

(** Lines 21-26 *)
Definition signal_handler {A : Type} : L A :=
  a <- plain get_self ;;
  plain (set_self (mkAppStarter (backend_process a) (frontend_process a) false)) ;;;
  plain stop_services ;;;
  sys_exit 0.

(** [time.sleep(seconds)] *)
Definition sleep (seconds : Z) : L unit :=
  caught <- plain (ask (Sleep seconds) (fun o h => inr (signalled o h))) ;;
  if caught then signal_handler else done tt.

(** [input(...)] *)
Definition input : L pystr :=
  answer <- plain (ask Input (fun o h => inr (input_result o h))) ;;
  match answer with
  | inr s => done s
  | inl (Failed e) => throw e
  | inl Interrupted => signal_handler
  end.

Section WithUnicode.
Context {U : UnicodeData}.

(** [any("mistral" in model["name"].lower() for model in models)] *)
Fixpoint any_mistral (models : list json) : exn + bool :=
  match models with
  | [] => inr false
  | model :: rest =>
      match getitem model (py "name") with
      | inl e => inl e
      | inr name =>
          match str_method lower name with
          | inl e => inl e
          | inr name_lower =>
              if contains (py "mistral") name_lower then inr true
              else any_mistral rest
          end
      end
  end.

(** Lines 75-77 and 85-87: ask whether to go on. *)
Definition continue_anyway : L bool :=
  answer <- input ;;
  done (eqb (lower answer) (py "y")).

(** Lines 39-89 *)
Definition check_requirements : L bool :=
  has_backend <- plain (exists_ (py "backend/main.py")) ;;
  has_frontend <- (if has_backend then plain (exists_ (py "frontend/app.py"))
                   else done false) ;;
  if negb has_backend || negb has_frontend then done false else
  imported <- plain import_packages ;;
  if negb imported then done false else
  except_Exception
    (response <- plain (requests_get OLLAMA_TAGS 3) ;;
     if Z.eqb (status_code response) 200
     then models <- plain (lift (json_result response)) ;;
          listed <- plain (lift (dict_get models (py "models") (JArr []))) ;;
          items <- plain (lift (iterate listed)) ;;
          mistral_found <- plain (lift (any_mistral items)) ;;
          if mistral_found then done true else continue_anyway
     else done false)
    (fun _ => continue_anyway).

(** Lines 91-132 and 134-176: spawn a service, give it [grace] seconds
    and see whether it is still there. *)
Definition start_service (c : child) (grace : Z) : L bool :=
  except_Exception
    (plain (popen c) ;;;
     plain (set_process c) ;;;
     sleep grace ;;;
     alive <- plain (poll_is_None c) ;;
     if alive then done true
     else plain (communicate c) ;;; done false)
    (fun _ => done false).

Definition start_backend : L bool := start_service backend 3.
Definition start_frontend : L bool := start_service frontend 4.

Fixpoint poll_backend (attempts : nat) : L bool :=
  match attempts with
  | O => done false
  | S rest =>
      ready <- plain backend_answers ;;
      if ready then done true
      else sleep 1 ;;; poll_backend rest
  end.

(** Lines 178-194 *)
Definition wait_for_backend : L bool := poll_backend 30.

(** Lines 286-296: [Some tt] when the loop is left, [None] while it is
    still going after [rounds] rounds. *)
Fixpoint monitor (rounds : nat) : L (option unit) :=
  match rounds with
  | O => done None
  | S rest =>
      a <- plain get_self ;;
      if negb (running a) then done (Some tt) else
      sleep 1 ;;;
      a <- plain get_self ;;
      backend_alive <- (if backend_process a then plain (poll_is_None backend)
                        else done true) ;;
      if negb backend_alive then done (Some tt) else
      frontend_alive <- (if frontend_process a then plain (poll_is_None frontend)
                         else done true) ;;
      if negb frontend_alive then done (Some tt) else
      monitor rest
  end.

(** Lines 244-303: what [run] returns; [None] while the services are
    still being watched. *)
Definition run (rounds : nat) : L (option bool) :=
  ok <- check_requirements ;;
  if negb ok then done (Some false) else
  ok <- start_backend ;;
  if negb ok then done (Some false) else
  ok <- wait_for_backend ;;
  if negb ok then plain stop_services ;;; done (Some false) else
  ok <- start_frontend ;;
  if negb ok then plain stop_services ;;; done (Some false) else
  ended <- monitor rounds ;;
  match ended with
  | None => done None
  | Some _ => plain stop_services ;;; done (Some true)
  end.

End WithUnicode.
End Launcher.

(** ** Notions of the statements *)

(** The text before the first line feed. *)
Fixpoint first_line (s : pystr) : pystr :=
  match s with
  | [] => []
  | c :: r => if N.eqb c LF then [] else c :: first_line r
  end.

Section Notions.
Context {U : UnicodeData}.

(** The first line of [sentiment_raw], stripped and title-cased: the first
    value of [sentiment_clean] (line 71). *)
Definition cleaned_first_line (sentiment_raw : pystr) : pystr :=
  title (strip (first_line sentiment_raw)).

(** The one request of [analyze_sentiment] (lines 48-61). *)
Definition generate_request (text : pystr) : request :=
  mkRequest POST Backend.OLLAMA_GENERATE
    (JsonBody (Backend.generate_payload (Backend.prompt_of text))) 30.

(** The request of [health_check] (line 108). *)
Definition tags_request : request :=
  mkRequest GET Backend.OLLAMA_TAGS NoBody 5.

(** The request of the page (lines 129-133). *)
Definition analyze_request (text_input : pystr) : request :=
  mkRequest POST Frontend.BACKEND_ANALYZE
    (FormBody [(py "text", text_input)]) 45.

(** The normalization in the words of the specification: the first line
    of the raw reply, stripped and title-cased, is kept when it is one of
    the three labels; otherwise its lower-cased form is searched for
    "positive", then for "negative". *)
Definition normalize_as_specified (raw_reply : pystr) : pystr :=
  let cleaned := title (strip (first_line raw_reply)) in
  if eqb cleaned (py "Positive") || eqb cleaned (py "Negative")
     || eqb cleaned (py "Neutral")
  then cleaned
  else
    let lowered := lower cleaned in
    if contains (py "positive") lowered then py "Positive"
    else if contains (py "negative") lowered then py "Negative"
    else py "Neutral".

(** The answer has status 200 and decodes to an object with a "response"
    field. *)
Definition has_response_field (answer : exn + response) : bool :=
  match answer with
  | inr (mkResponse status (inr (JObj fields))) =>
      Z.eqb status 200 && has_key (py "response") fields
  | _ => false
  end.

(** The answer has status 200 and decodes to an object whose "response"
    field is a string: that string. *)
Definition string_reply (answer : exn + response) : option pystr :=
  match answer with
  | inr (mkResponse status (inr (JObj fields))) =>
      if Z.eqb status 200 then
        match lookup (py "response") fields with
        | Some (JStr reply) => Some reply
        | _ => None
        end
      else None
  | _ => None
  end.

(** A world that gives one fixed answer and has no past. *)
Definition answering (answer : exn + response) : world :=
  mkWorld (fun _ _ => answer) [] [] [].

(** The result of [analyze_sentiment] as a function of the text and of
    the answer to its request. *)
Definition result_of (text : pystr) (answer : exn + response) : exn + Backend.analysis :=
  fst (Backend.analyze_sentiment text (answering answer)).

(** One of the three labels. *)
Definition is_label (s : pystr) : Prop :=
  s = py "Positive" \/ s = py "Negative" \/ s = py "Neutral".

Definition CONNECT_DETAIL : pystr :=
  py "Could not connect to Ollama service. Make sure Ollama is running and Mistral model is available.".
Definition UNEXPECTED_DETAIL : pystr := py "An unexpected error occurred".

(** The detail of the error 500 for an answer that gives no string
    reply. *)
Definition failure_detail (answer : exn + response) : pystr :=
  match answer with
  | inl e => if is_RequestException e then CONNECT_DETAIL else UNEXPECTED_DETAIL
  | inr (mkResponse status decoded) =>
      if Z.eqb status 200 then
        match decoded with
        | inl e => if is_RequestException e then CONNECT_DETAIL else UNEXPECTED_DETAIL
        | inr _ => UNEXPECTED_DETAIL
        end
      else UNEXPECTED_DETAIL
  end.

(** The inference service answers 200 with [{"response": reply}]. *)
Definition ollama_says (reply : json) : world :=
  answering (inr (mkResponse 200 (inr (JObj [(py "response", reply)])))).

(** A reply that starts on its second line. *)
Definition second_line_reply : pystr := LF :: py "Positive".

(** The same service as [ollama_says], after an earlier request. *)
Definition ollama_says_again (reply : json) : world :=
  mkWorld (fun _ _ => inr (mkResponse 200 (inr (JObj [(py "response", reply)]))))
          [generate_request (py "earlier text")]
          [LogAnalyzed (py "earlier text") (py "Negative")]
          [].

(** What [health_check] makes of the body of a 200 answer: whether a
    model named "mistral..." is listed, or the exception on the way. *)
Definition scan_models (decoded : exn + json) : exn + bool :=
  match decoded with
  | inl e => inl e
  | inr models =>
      match getitem models (py "models") with
      | inl e => inl e
      | inr listed =>
          match iterate listed with
          | inl e => inl e
          | inr items => Backend.any_mistral items
          end
      end
  end.

(** The label the page shows for a decoded result: its "sentiment", or
    "Unknown" when the key is missing. *)
Definition label_of (fields : list (pystr * json)) (label : pystr) : Prop :=
  lookup (py "sentiment") fields = Some (JStr label)
  \/ (lookup (py "sentiment") fields = None /\ label = py "Unknown").

(** The API service answers 200 with the given object. *)
Definition api_says (fields : list (pystr * json)) : world :=
  answering (inr (mkResponse 200 (inr (JObj fields)))).

End Notions.

(** ** Notions of the statements about the launcher *)

Module LauncherSpec.
Import Launcher.

(** The signal [stop_services] sends first. *)
Definition graceful_call (o : os) (c : child) : call :=
  if windows o then SendCtrlBreak c else Terminate c.

(** One readiness probe. *)
Definition probe : call := HttpGet BACKEND_ROOT 2.

(** [k] probes that failed, each followed by its sleep of one second. *)
Fixpoint failed_probes (k : nat) : list call :=
  match k with
  | O => []
  | S k' => probe :: Sleep 1 :: failed_probes k'
  end.

(** The probe made after the calls [h] is answered with status 200. *)
Definition answers_200 (o : os) (h : list call) : bool :=
  match get_result o h BACKEND_ROOT 2 with
  | inr r => Z.eqb (status_code r) 200
  | inl _ => false
  end.

(** How the system answers the [wait(timeout=5)] that follows the
    graceful signal sent after the calls [h]. *)
Definition wait5 (o : os) (h : list call) (c : child) : option exn :=
  wait_result o (h ++ [graceful_call o c]) c (Some 5).

(** The child took the signal and exited within the 5 seconds. *)
Definition exits_in_time (o : os) (h : list call) (c : child) : Prop :=
  signal_result o h c = None /\ wait5 o h c = None.

(** The child took the signal and had not exited after 5 seconds. *)
Definition times_out (o : os) (h : list call) (c : child) : Prop :=
  signal_result o h c = None /\ wait5 o h c = Some TimeoutExpired.

(** Sending the signal, or waiting, raised an error. *)
Definition stop_errs (o : os) (h : list call) (c : child) : Prop :=
  signal_result o h c <> None \/
  (signal_result o h c = None /\
   exists e, wait5 o h c = Some e /\ e <> TimeoutExpired).

(** The calls by which a service is started. *)
Definition start_calls (o : os) (c : child) (grace : Z) : list call :=
  [Popen c (windows o); Sleep grace; Poll c].

(** The body of a tags answer that lists the model. *)
Definition tags_with_mistral : json :=
  JObj [(py "models", JArr [JObj [(py "name", JStr (py "mistral:latest"))]])].

(** The frontend has been polled. *)
Definition frontend_polled (h : list call) : bool :=
  existsb (fun k => match k with Poll frontend => true | _ => false end) h.

(** A system on which everything succeeds, every child stops when asked,
    and a signal arrives once the frontend has been polled, that is in
    the first sleep of the monitoring loop. *)
Definition calm : os :=
  mkOs false
       (fun _ _ => true) (fun _ => true) (fun _ => inr (py "y"))
       (fun _ _ => None) (fun _ _ => true) (fun _ _ => None)
       (fun _ _ => None) (fun _ _ _ => None) (fun _ _ => None)
       (fun _ _ _ => inr (mkResponse 200 (inr tags_with_mistral)))
       frontend_polled.

(** The same system, with the signal arriving in the very first sleep,
    while the backend is given its three seconds. *)
Definition hasty : os :=
  mkOs false
       (fun _ _ => true) (fun _ => true) (fun _ => inr (py "y"))
       (fun _ _ => None) (fun _ _ => true) (fun _ _ => None)
       (fun _ _ => None) (fun _ _ _ => None) (fun _ _ => None)
       (fun _ _ _ => inr (mkResponse 200 (inr tags_with_mistral)))
       (fun _ => true).

(** A system on which the backend has died by the time the monitoring
    loop looks at it, and no signal arrives. *)
Definition frail : os :=
  mkOs false
       (fun _ _ => true) (fun _ => true) (fun _ => inr (py "y"))
       (fun _ _ => None) (fun h _ => negb (frontend_polled h)) (fun _ _ => None)
       (fun _ _ => None) (fun _ _ _ => None) (fun _ _ => None)
       (fun _ _ _ => inr (mkResponse 200 (inr tags_with_mistral)))
       (fun _ => false).



(** The fields of the launcher once the process [c] is set. *)
Definition with_process (c : child) (a : AppStarter) : AppStarter :=
  match c with
  | backend => mkAppStarter true (frontend_process a) (running a)
  | frontend => mkAppStarter (backend_process a) true (running a)
  end.

(** The calls of a launch that reached the monitoring loop: whatever the
    check of the requirements did, the start of the backend, [k] failed
    probes and the one that succeeded, the start of the frontend, and
    what the monitoring loop did. *)
Definition launch_calls (o : os) (before : list call) (k : nat)
    (watched : list call) : list call :=
  before ++ start_calls o backend 3 ++ failed_probes k
         ++ probe :: start_calls o frontend 4 ++ watched.

Definition child_eqb (a b : child) : bool :=
  match a, b with
  | backend, backend | frontend, frontend => true
  | _, _ => false
  end.

(** The call spawns the child [c]. *)
Definition spawns (c : child) (k : call) : bool :=
  match k with
  | Popen c' _ => child_eqb c c'
  | _ => false
  end.

(** The fields of the launcher once the handler has cleared [running]. *)
Definition stopping (a : AppStarter) : AppStarter :=
  mkAppStarter (backend_process a) (frontend_process a) false.

(** What [stop_services] does about the child [c] after the calls [h]:
    nothing when no process is recorded for it; otherwise the calls [t],
    which start with the graceful signal and hold a kill exactly when the
    child had not exited after 5 seconds or an error was raised. *)
Definition stops_child (o : os) (recorded : bool) (c : child)
    (h t : list call) : Prop :=
  if recorded
  then exists rest,
         t = graceful_call o c :: rest /\
         (In (Kill c) rest <-> times_out o h c \/ stop_errs o h c)
  else t = [].


(** The world in which the signal handler leaves, when the signal arrives
    in the world [w]. *)
Definition handled (w : world) : world :=
  snd (stop_services (mkWorld (sys w) (calls w) (stopping (self w)))).

(** The calls of [check_requirements]. *)
Definition asks_only (k : call) : bool :=
  match k with
  | PathExists _ | ImportPackages | HttpGet _ _ | Input => true
  | _ => false
  end.

(** The calls of the start of the child [c], the spawn apart. *)
Definition settles (c : child) (k : call) : bool :=
  match k with
  | Sleep _ => true
  | Poll c' | Communicate c' => child_eqb c c'
  | _ => false
  end.

(** The calls of the monitoring loop. *)
Definition watches (k : call) : bool :=
  match k with
  | Sleep _ | Poll _ => true
  | _ => false
  end.

(** A computation that leaves the fields of the launcher alone: it makes
    calls that satisfy [P], and then ends without [sys.exit], or is
    interrupted by a signal, which the handler takes. *)
Definition finishes {A : Type} (P : call -> bool) (c : L A) : Prop :=
  forall w, exists t,
    forallb P t = true /\
    ((exists r, c w = (r, mkWorld (sys w) (calls w ++ t) (self w)) /\
                forall code, r <> inl (Exit code))
     \/ c w = (inl (Exit 0), handled (mkWorld (sys w) (calls w ++ t) (self w)))).

(** After the calls [pre], the probe number [k] (from 0) is the first one
    answered with status 200, and it is one of the 30. *)
Definition ready_after (o : os) (pre : list call) (k : nat) : Prop :=
  (k < 30)%nat /\
  answers_200 o (pre ++ failed_probes k) = true /\
  forall j, (j < k)%nat -> answers_200 o (pre ++ failed_probes j) = false.

(** The fields of the launcher at the start, with the backend recorded,
    and with both services recorded. *)
Definition nothing_started : AppStarter := mkAppStarter false false true.
Definition backend_started : AppStarter := mkAppStarter true false true.
Definition all_started : AppStarter := mkAppStarter true true true.

(** The calls up to the probe that is answered. *)
Definition ready_calls (o : os) (before : list call) (k : nat) : list call :=
  before ++ start_calls o backend 3 ++ failed_probes k ++ [probe].

(** The ways in which [run] ends, or goes on: what it gives and the world
    it leaves, on the system [o]. *)
Inductive ending (o : os) : halt + option bool -> world -> Prop :=
| refused (before : list call) (r : halt + option bool) :
    forallb asks_only before = true ->
    r = inr (Some false) \/ (exists e, r = inl (Raise e)) ->
    ending o r (mkWorld o before nothing_started)
| interrupted_asking (before : list call) :
    forallb asks_only before = true ->
    ending o (inl (Exit 0)) (handled (mkWorld o before nothing_started))
| backend_failed (before rest : list call) (a : AppStarter) :
    forallb asks_only before = true ->
    forallb (settles backend) rest = true ->
    ending o (inr (Some false))
      (mkWorld o (before ++ Popen backend (windows o) :: rest) a)
| interrupted_starting_backend (before : list call) :
    forallb asks_only before = true ->
    ending o (inl (Exit 0))
      (handled (mkWorld o (before ++ [Popen backend (windows o); Sleep 3])
                  backend_started))
| interrupted_probing (before : list call) (k : nat) :
    forallb asks_only before = true ->
    (k < 30)%nat ->
    ending o (inl (Exit 0))
      (handled (mkWorld o (before ++ start_calls o backend 3
                             ++ failed_probes (S k)) backend_started))
| never_ready (before : list call) (w' : world) :
    forallb asks_only before = true ->
    (forall j, (j < 30)%nat ->
       answers_200 o (before ++ start_calls o backend 3 ++ failed_probes j)
       = false) ->
    stop_services (mkWorld o (before ++ start_calls o backend 3
                                ++ failed_probes 30) backend_started)
    = (inr tt, w') ->
    ending o (inr (Some false)) w'
| frontend_failed (before rest : list call) (k : nat) (a : AppStarter)
    (w' : world) :
    forallb asks_only before = true ->
    ready_after o (before ++ start_calls o backend 3) k ->
    forallb (settles frontend) rest = true ->
    backend_process a = true ->
    stop_services (mkWorld o (ready_calls o before k
                                ++ Popen frontend (windows o) :: rest) a)
    = (inr tt, w') ->
    ending o (inr (Some false)) w'
| interrupted_starting_frontend (before : list call) (k : nat) :
    forallb asks_only before = true ->
    ready_after o (before ++ start_calls o backend 3) k ->
    ending o (inl (Exit 0))
      (handled (mkWorld o (ready_calls o before k
                             ++ [Popen frontend (windows o); Sleep 4])
                  all_started))
| watching (before watched : list call) (k : nat) :
    forallb asks_only before = true ->
    ready_after o (before ++ start_calls o backend 3) k ->
    forallb watches watched = true ->
    ending o (inr None) (mkWorld o (launch_calls o before k watched) all_started)
| interrupted_watching (before watched : list call) (k : nat) :
    forallb asks_only before = true ->
    ready_after o (before ++ start_calls o backend 3) k ->
    forallb watches watched = true ->
    ending o (inl (Exit 0))
      (handled (mkWorld o (launch_calls o before k watched) all_started))
| child_died (before watched : list call) (k : nat) (w' : world) :
    forallb asks_only before = true ->
    ready_after o (before ++ start_calls o backend 3) k ->
    forallb watches watched = true ->
    stop_services (mkWorld o (launch_calls o before k watched) all_started)
    = (inr tt, w') ->
    ending o (inr (Some true)) w'.

End LauncherSpec.

(** ** Further notions: the API service *)

Section MoreNotions.
Context {U : UnicodeData}.

(** The tables lower-case the three labels to their lower-case
    spellings, as the Unicode database does. *)
Definition lowers_labels : Prop :=
  lower (py "Positive") = py "positive" /\
  lower (py "Negative") = py "negative" /\
  lower (py "Neutral") = py "neutral".

(** An error record of the log. *)
Definition is_error_record (r : log_record) : bool :=
  match r with
  | LogAnalyzed _ _ => false
  | _ => true
  end.

(** The detail of the exception raised at line 65. *)
Definition FAILED_DETAIL : pystr := py "Failed to connect to Ollama service".

End MoreNotions.

(** ** Further notions: the lists of models *)

Section ModelNotions.
Context {U : UnicodeData}.

(** The name of a listed model, when the entry is an object whose "name"
    is a string. *)
Definition model_name (model : json) : option pystr :=
  match getitem model (py "name") with
  | inr (JStr s) => Some s
  | _ => None
  end.

(** An entry that the health check reads and passes over. *)
Definition other_model (model : json) : Prop :=
  exists s, model_name model = Some s /\ startswith s (py "mistral") = false.

(** An entry whose name starts with "mistral". *)
Definition mistral_model (model : json) : Prop :=
  exists s, model_name model = Some s /\ startswith s (py "mistral") = true.

(** The tables leave the letters of [word] as they are when lower-casing,
    as the Unicode database does for lower-case ASCII letters. *)
Definition lower_keeps (word : pystr) : Prop :=
  Forall (fun c => to_lower_full c = [c]) word.

(** A listed model. *)
Definition model_named (name : pystr) : json := JObj [(py "name", JStr name)].

End ModelNotions.

(** ** frontend/app.py: the sidebar *)

Module Sidebar.

(** What the sidebar shows after "Check System Health" (lines 84-96). *)
Inductive health_note :=
| ApiRunning
| OllamaConnected
| MistralAvailable
| MistralNotFound
| OllamaNotConnected
| ApiNotResponding
| CannotConnectApi (e : exn).

(** The sidebar talks to the API service and collects its notes. *)
Record panel := mkPanel {
  api : list request -> request -> exn + response;
  asked : list request;
  notes : list health_note
}.

Definition BACKEND_HEALTH : pystr := py "http://localhost:8000/health/".

Definition health_request : request := mkRequest GET BACKEND_HEALTH NoBody 5.

Definition requests_get (u : pystr) (t : Z) : M panel response :=
  fun p =>
    (api p (asked p) (mkRequest GET u NoBody t),
     mkPanel (api p) (asked p ++ [mkRequest GET u NoBody t]) (notes p)).

Definition note (n : health_note) : M panel unit :=
  fun p => (inr tt, mkPanel (api p) (asked p) (notes p ++ [n])).

(** The truth value of a decoded value in an [if]. *)
Definition truthy (v : json) : bool :=
  match v with
  | JNull => false
  | JBool b => b
  | JNum (PyInt z) => negb (Z.eqb z 0)
  | JNum (PyFloat bits) =>
      negb (Z.eqb bits 0 || Z.eqb bits 0x8000000000000000)
  | JStr s => negb (falsy s)
  | JArr items => match items with [] => false | _ :: _ => true end
  | JObj fields => match fields with [] => false | _ :: _ => true end
  end.

(** [v == s] for a string [s]. *)
Definition equals_str (v : json) (s : pystr) : bool :=
  match v with
  | JStr t => eqb t s
  | _ => false
  end.

(** Lines 79-96 *)
Definition check_system_health : M panel unit :=
  try_except
    (health_response <- requests_get BACKEND_HEALTH 5 ;;
     if Z.eqb (status_code health_response) 200
     then health_data <- lift (json_result health_response) ;;
          note ApiRunning ;;;
          ollama_status <- lift (dict_get health_data (py "ollama_status") JNull) ;;
          if equals_str ollama_status (py "connected")
          then note OllamaConnected ;;;
               available <- lift (dict_get health_data (py "mistral_available") JNull) ;;
               if truthy available then note MistralAvailable
               else note MistralNotFound
          else note OllamaNotConnected
     else note ApiNotResponding)
    (fun e => note (CannotConnectApi e)).

(** The dict of [GET /health/] (backend/main.py, lines 112-129) as the
    API service sends it; [describe] is [str] on exceptions. *)
Definition health_fields (describe : exn -> pystr) (h : Backend.health)
    : list (pystr * json) :=
  [ (py "api_status", JStr (Backend.api_status h));
    (py "ollama_status", JStr (Backend.ollama_status h));
    (py "mistral_available", JBool (Backend.mistral_available h)) ]
  ++ match Backend.error h with
     | Some e => [(py "error", JStr (describe e))]
     | None => []
     end.

(** What the sidebar shows for a health check that went through. *)
Definition health_notes (connected available : bool) : list health_note :=
  ApiRunning ::
  (if connected
   then [OllamaConnected; if available then MistralAvailable else MistralNotFound]
   else [OllamaNotConnected]).

End Sidebar.

(** ** Further notions: the launcher *)

Module LauncherMore.
Import Launcher LauncherSpec.

(** The call signals, waits for or kills the child [c]. *)
Definition stops (c : child) (k : call) : bool :=
  match k with
  | Terminate c' | SendCtrlBreak c' | Wait c' _ | Kill c' => child_eqb c c'
  | _ => false
  end.

(** The call looks at the files or the packages of the project. *)
Definition is_local (k : call) : bool :=
  match k with
  | PathExists _ | ImportPackages => true
  | _ => false
  end.

(** The call is not the spawn of the frontend. *)
Definition not_frontend_spawn (k : call) : bool := negb (spawns frontend k).

(** A computation keeps the system, appends to the calls, and every call
    it appends satisfies [P]. *)
Definition emits {A : Type} (P : call -> bool) (c : M world A) : Prop :=
  forall w, exists tr,
    sys (snd (c w)) = sys w /\
    calls (snd (c w)) = calls w ++ tr /\
    forallb P tr = true.

(** What [check_requirements] makes of the body of a 200 answer. *)
Definition scan_tags {U : UnicodeData} (decoded : exn + json) : exn + bool :=
  match decoded with
  | inl e => inl e
  | inr models =>
      match dict_get models (py "models") (JArr []) with
      | inl e => inl e
      | inr listed =>
          match iterate listed with
          | inl e => inl e
          | inr items => Launcher.any_mistral items
          end
      end
  end.

(** The calls of the checks that come before the request to Ollama. *)
Definition local_checks : list call :=
  [PathExists (py "backend/main.py"); PathExists (py "frontend/app.py");
   ImportPackages].

(** Lines 305-309: the exit status of the launcher, from the value [run]
    returns or from the handler; [None] while the services are still
    being watched. *)
Definition main {U : UnicodeData} (rounds : nat) (o : os)
    : (exn + option Z) * world :=
  match run rounds (init o) with
  | (inr (Some success), w) => (inr (Some (if success then 0 else 1)), w)
  | (inr None, w) => (inr None, w)
  | (inl (Exit code), w) => (inr (Some code), w)
  | (inl (Raise e), w) => (inl e, w)
  end.

(** A system on which the backend is spawned and never answers. *)
Definition silent_backend : os :=
  mkOs false
       (fun _ _ => true) (fun _ => true) (fun _ => inr (py "y"))
       (fun _ _ => None) (fun _ _ => true) (fun _ _ => None)
       (fun _ _ => None) (fun _ _ _ => None) (fun _ _ => None)
       (fun _ u _ =>
          if eqb u OLLAMA_TAGS
          then inr (mkResponse 200 (inr tags_with_mistral))
          else inl (RequestException ReqConnectionError))
       (fun _ => false).

(** A system on which the files of the project are not found. *)
Definition wrong_directory : os :=
  mkOs false
       (fun _ _ => false) (fun _ => true) (fun _ => inr (py "y"))
       (fun _ _ => None) (fun _ _ => true) (fun _ _ => None)
       (fun _ _ => None) (fun _ _ _ => None) (fun _ _ => None)
       (fun _ _ _ => inr (mkResponse 200 (inr tags_with_mistral)))
       (fun _ => false).

End LauncherMore.

(** * Properties *)

Import Backend.

(** ** Strings *)

Lemma eqb_eq (a b : pystr) : eqb a b = true <-> a = b.
Proof.
  unfold eqb. destruct (list_eq_dec N.eq_dec a b); split; congruence.
Qed.

Lemma eqb_refl (a : pystr) : eqb a a = true.
Proof. now apply eqb_eq. Qed.

Lemma mem_In (x : pystr) (xs : list pystr) : mem x xs = true <-> In x xs.
Proof.
  unfold mem. rewrite existsb_exists. split.
  - intros [y [Hy E]]. apply eqb_eq in E. now subst.
  - intros H. exists x. split; [assumption | apply eqb_refl].
Qed.

Lemma split_cons (sep : N) (s : pystr) :
  exists h t, split sep s = h :: t.
Proof.
  induction s as [|c r [h [t IH]]]; simpl.
  - now exists [], [].
  - destruct (N.eqb c sep).
    + now exists [], (split sep r).
    + rewrite IH. now exists (c :: h), t.
Qed.

Lemma split_first_line (s : pystr) :
  list_index (split LF s) 0 = inr (first_line s).
Proof.
  unfold list_index.
  induction s as [|c r IH]; simpl; [reflexivity|].
  destruct (N.eqb c LF); [reflexivity|].
  destruct (split_cons LF r) as [h [t E]]. rewrite E in *. simpl in *.
  now inversion IH.
Qed.

Section Examples.
#[local] Existing Instance basic_latin.

Example strip_ex : strip (py "  Positive. ") = py "Positive.".
Proof. reflexivity. Qed.

Example title_ex :
  title (py "very pOSITIVE, i'd say") = py "Very Positive, I'D Say".
Proof. reflexivity. Qed.

Example split_ex :
  split LF (LF :: py "a" ++ LF :: py "b") = [[]; py "a"; py "b"].
Proof. reflexivity. Qed.

Example clean_ex1 : clean_sentiment (py "positive") = inr (py "Positive").
Proof. reflexivity. Qed.

Example clean_ex2 :
  clean_sentiment (py "The sentiment is NEGATIVE.") = inr (py "Negative").
Proof. reflexivity. Qed.

Example clean_ex3 : clean_sentiment (py "Mixed feelings") = inr (py "Neutral").
Proof. reflexivity. Qed.

End Examples.

(** ** The label *)

Section Label.
Context {U : UnicodeData}.

Lemma clean_sentiment_eq (sentiment_raw : pystr) :
  clean_sentiment sentiment_raw =
  inr (if mem (cleaned_first_line sentiment_raw) valid_sentiments
       then cleaned_first_line sentiment_raw
       else extract_sentiment (cleaned_first_line sentiment_raw)).
Proof.
  unfold clean_sentiment, cleaned_first_line.
  rewrite split_first_line.
  now destruct (mem _ valid_sentiments).
Qed.

Lemma extract_sentiment_valid (s : pystr) : In (extract_sentiment s) valid_sentiments.
Proof.
  unfold extract_sentiment, valid_sentiments.
  destruct (contains (py "positive") (lower s)); [simpl; auto|].
  destruct (contains (py "negative") (lower s)); simpl; auto.
Qed.

Lemma clean_sentiment_valid (sentiment_raw : pystr) :
  exists label,
    clean_sentiment sentiment_raw = inr label /\ In label valid_sentiments.
Proof.
  rewrite clean_sentiment_eq.
  destruct (mem (cleaned_first_line sentiment_raw) valid_sentiments) eqn:E.
  - eexists; split; [reflexivity|]. now apply mem_In.
  - eexists; split; [reflexivity|]. apply extract_sentiment_valid.
Qed.

End Label.

(** ** The analyze operation *)

Section Analyze.
Context {U : UnicodeData}.

Ltac run_analyze :=
  cbv [analyze_sentiment analyze_body analyze_handlers try_except bind
       requests_post send response_json lift log ret raise
       net sent logged shown status_code json_result answering fst snd].

Lemma analyze_sentiment_result (text : pystr) (w : world) :
  fst (analyze_sentiment text w)
  = result_of text (net w (sent w) (generate_request text)).
Proof.
  unfold result_of. fold (generate_request text).
  destruct w as [nt st lg sh].
  run_analyze.
  destruct (falsy (strip text)); [reflexivity|].
  fold (generate_request text).
  destruct (nt st (generate_request text)) as [e | [status [e | j]]].
  - now destruct (is_RequestException e).
  - destruct (negb (status =? 200)); [reflexivity|].
    now destruct (is_RequestException e).
  - destruct (negb (status =? 200)); [reflexivity|].
    destruct (getitem j (py "response")) as [e | reply].
    + now destruct (is_RequestException e).
    + destruct (str_method strip reply) as [e | sentiment_raw].
      * now destruct (is_RequestException e).
      * destruct (clean_sentiment sentiment_raw) as [e | label];
          [now destruct (is_RequestException e) | reflexivity].
Qed.

Lemma normalize_as_specified_eq (raw : pystr) :
  normalize_as_specified raw
  = if mem (cleaned_first_line raw) valid_sentiments
    then cleaned_first_line raw
    else extract_sentiment (cleaned_first_line raw).
Proof.
  unfold normalize_as_specified, cleaned_first_line, mem, valid_sentiments,
    extract_sentiment.
  simpl existsb. now rewrite orb_false_r, orb_assoc.
Qed.

Lemma clean_sentiment_as_specified (sentiment_raw : pystr) :
  clean_sentiment sentiment_raw = inr (normalize_as_specified sentiment_raw).
Proof.
  now rewrite clean_sentiment_eq, normalize_as_specified_eq.
Qed.

Lemma normalize_as_specified_label (raw : pystr) :
  is_label (normalize_as_specified raw).
Proof.
  destruct (clean_sentiment_valid raw) as [label [E H]].
  rewrite clean_sentiment_as_specified in E. inversion E; subst.
  unfold is_label. unfold valid_sentiments in H. simpl in H. intuition.
Qed.

(** What [analyze_sentiment] returns, case by case. *)
Lemma result_of_spec (text : pystr) (answer : exn + response) :
  result_of text answer
  = if falsy (strip text)
    then inl (HTTPException 400 (py "Text cannot be empty"))
    else match string_reply answer with
         | Some reply =>
             inr (mkAnalysis (normalize_as_specified (strip reply))
                             text (strip reply))
         | None => inl (HTTPException 500 (failure_detail answer))
         end.
Proof.
  unfold result_of. run_analyze.
  destruct (falsy (strip text)); [reflexivity|].
  destruct answer as [e | [status [e | j]]]; simpl.
  - now destruct (is_RequestException e).
  - destruct (status =? 200); simpl; [|reflexivity].
    now destruct (is_RequestException e).
  - destruct (status =? 200); simpl; [|now destruct j].
    destruct j as [ | b | n | s | items | fields]; try reflexivity.
    simpl. destruct (lookup (py "response") fields) as [reply|];
      [|reflexivity].
    destruct reply; try reflexivity.
    simpl. now rewrite clean_sentiment_as_specified.
Qed.

Lemma analyze_sentiment_blank (text : pystr) (w : world) :
  falsy (strip text) = true ->
  analyze_sentiment text w
  = (inl (HTTPException 400 (py "Text cannot be empty")), w).
Proof.
  intros H. unfold analyze_sentiment. now rewrite H.
Qed.

Lemma analyze_sentiment_sent (text : pystr) (w : world) :
  falsy (strip text) = false ->
  sent (snd (analyze_sentiment text w)) = sent w ++ [generate_request text].
Proof.
  intros H. destruct w as [nt st lg sh].
  run_analyze. rewrite H.
  fold (generate_request text).
  destruct (nt st (generate_request text)) as [e | [status [e | j]]].
  - now destruct (is_RequestException e).
  - destruct (negb (status =? 200)); [reflexivity|].
    now destruct (is_RequestException e).
  - destruct (negb (status =? 200)); [reflexivity|].
    destruct (getitem j (py "response")) as [e | reply].
    + now destruct (is_RequestException e).
    + destruct (str_method strip reply) as [e | sentiment_raw].
      * now destruct (is_RequestException e).
      * destruct (clean_sentiment sentiment_raw) as [e | label];
          [now destruct (is_RequestException e) | reflexivity].
Qed.

End Analyze.

Lemma string_reply_Some (answer : exn + response) (reply : pystr) :
  string_reply answer = Some reply <->
  exists fields,
    answer = inr (mkResponse 200 (inr (JObj fields))) /\
    lookup (py "response") fields = Some (JStr reply).
Proof.
  split.
  - destruct answer as [e | [status [e | j]]]; simpl; try discriminate.
    destruct j as [ | b | n | s | items | fields]; try discriminate.
    destruct (Z.eqb_spec status 200) as [-> |]; [|discriminate].
    destruct (lookup (py "response") fields) as [[ | | | s | | ]|] eqn:E;
      try discriminate.
    intros [= ->]. now exists fields.
  - intros [fields [-> L]]. simpl. now rewrite L.
Qed.

(** C1: whatever string the inference service puts in the "response"
    field of a 200 answer, [analyze_sentiment] succeeds with a "sentiment"
    that is "Positive", "Negative" or "Neutral"; and a call that succeeds
    never returns any other label. *)
Theorem analyze_sentiment_label (U : UnicodeData) :
  (forall text w fields reply,
      falsy (strip text) = false ->
      net w (sent w) (generate_request text)
      = inr (mkResponse 200 (inr (JObj fields))) ->
      lookup (py "response") fields = Some (JStr reply) ->
      exists a w',
        analyze_sentiment text w = (inr a, w') /\ is_label (sentiment a)) /\
  (forall text w a w',
      analyze_sentiment text w = (inr a, w') -> is_label (sentiment a)).
Proof.
  split.
  - intros text w fields reply Ht Hn Hl.
    pose proof (analyze_sentiment_result text w) as R.
    rewrite result_of_spec, Ht, Hn in R. simpl in R. rewrite Hl in R.
    destruct (analyze_sentiment text w) as [r w'] eqn:E. simpl in R. subst r.
    eexists; eexists; split; [reflexivity|].
    apply normalize_as_specified_label.
  - intros text w a w' E.
    pose proof (analyze_sentiment_result text w) as R.
    rewrite E, result_of_spec in R. simpl in R.
    destruct (falsy (strip text)); [discriminate|].
    destruct (string_reply _); [|discriminate].
    inversion R; subst. apply normalize_as_specified_label.
Qed.

Lemma analyze_sentiment_label_witness :
  (exists a w',
      @analyze_sentiment basic_latin (py "I love it")
        (ollama_says (JStr (py " Positive"))) = (inr a, w')
      /\ is_label (sentiment a))
  /\ is_label (py "Positive").
Proof.
  split.
  - apply (proj1 (analyze_sentiment_label basic_latin)
             (py "I love it") (ollama_says (JStr (py " Positive")))
             [(py "response", JStr (py " Positive"))] (py " Positive"));
      reflexivity.
  - apply (proj2 (analyze_sentiment_label basic_latin)
             (py "I love it") (ollama_says (JStr (py " Positive")))
             (mkAnalysis (py "Positive") (py "I love it") (py "Positive"))
             (snd (@analyze_sentiment basic_latin (py "I love it")
                     (ollama_says (JStr (py " Positive")))))).
    reflexivity.
Defined.

(** C2, as amended: the reply is stripped first; the first line of the
    stripped reply is stripped and title-cased; when that is exactly
    "Positive", "Negative" or "Neutral" it is the label; otherwise its
    lower-cased form gives "Positive" if it contains "positive", else
    "Negative" if it contains "negative", else "Neutral". *)
Theorem normalization_as_specified (U : UnicodeData) :
  forall text w a w',
    analyze_sentiment text w = (inr a, w') ->
    exists reply,
      string_reply (net w (sent w) (generate_request text)) = Some reply /\
      raw_response a = strip reply /\
      sentiment a = normalize_as_specified (strip reply).
Proof.
  intros text w a w' E.
  pose proof (analyze_sentiment_result text w) as R.
  rewrite E, result_of_spec in R. simpl in R.
  destruct (falsy (strip text)); [discriminate|].
  destruct (string_reply _) as [reply|]; [|discriminate].
  inversion R; subst. now exists reply.
Qed.

Lemma normalization_as_specified_witness :
  exists reply,
    string_reply (inr (mkResponse 200
        (inr (JObj [(py "response", JStr second_line_reply)])))) = Some reply /\
    py "Positive" = @strip basic_latin reply /\
    py "Positive" = @normalize_as_specified basic_latin (@strip basic_latin reply).
Proof.
  apply (normalization_as_specified basic_latin
           (py "Great!") (ollama_says (JStr second_line_reply))
           (mkAnalysis (py "Positive") (py "Great!") (py "Positive"))
           (snd (@analyze_sentiment basic_latin (py "Great!")
                   (ollama_says (JStr second_line_reply))))).
  reflexivity.
Defined.

(** C2 as stated fails: for the reply "\nPositive" the code answers
    "Positive", while the first line of the raw reply is empty and the
    stated rule gives "Neutral". *)
Lemma first_line_of_raw_reply_differs :
  exists a w',
    @analyze_sentiment basic_latin (py "Great!")
      (ollama_says (JStr second_line_reply)) = (inr a, w')
    /\ sentiment a = py "Positive"
    /\ @normalize_as_specified basic_latin second_line_reply = py "Neutral"
    /\ sentiment a <> @normalize_as_specified basic_latin second_line_reply.
Proof.
  eexists; eexists. split; [reflexivity|].
  repeat split; discriminate.
Qed.

(** C4, as amended: for every text that is not blank (its stripped form
    is not empty) one call of [analyze_sentiment] sends exactly one
    request, a POST to the generate endpoint with a timeout of 30 seconds,
    whatever the answer is. *)
Theorem analyze_sentiment_one_request (U : UnicodeData) :
  forall text w,
    falsy (strip text) = false ->
    sent (snd (analyze_sentiment text w)) = sent w ++ [generate_request text]
    /\ meth (generate_request text) = POST
    /\ url (generate_request text) = py "http://localhost:11434/api/generate"
    /\ timeout (generate_request text) = 30.
Proof.
  intros text w H. split; [now apply analyze_sentiment_sent|].
  repeat split.
Qed.

Lemma analyze_sentiment_one_request_witness :
  sent (snd (@analyze_sentiment basic_latin (py "Great!")
               (answering (inl (RequestException ReqReadTimeout)))))
  = [] ++ [@generate_request (py "Great!")]
  /\ meth (generate_request (py "Great!")) = POST
  /\ url (generate_request (py "Great!")) = py "http://localhost:11434/api/generate"
  /\ timeout (generate_request (py "Great!")) = 30.
Proof.
  apply (analyze_sentiment_one_request basic_latin (py "Great!")
           (answering (inl (RequestException ReqReadTimeout)))).
  reflexivity.
Defined.

(** C4 as stated fails: the text " " is not empty, and no request is
    sent for it. *)
Lemma blank_text_sends_nothing :
  py " " <> []
  /\ sent (snd (@analyze_sentiment basic_latin (py " ")
                  (ollama_says (JStr (py "Neutral"))))) = [].
Proof.
  split; [discriminate | reflexivity].
Qed.

(** C5, as amended: for a text that is not blank, [analyze_sentiment]
    succeeds if and only if the request is answered with status 200 and a
    body that decodes to an object whose "response" field is a string; in
    every other case it fails with an error 500 and no sentiment; and
    either way it has sent its one request and nothing more. *)
Theorem analyze_sentiment_success_iff (U : UnicodeData) :
  forall text w,
    falsy (strip text) = false ->
    ((exists a, fst (analyze_sentiment text w) = inr a) <->
     (exists fields reply,
         net w (sent w) (generate_request text)
         = inr (mkResponse 200 (inr (JObj fields))) /\
         lookup (py "response") fields = Some (JStr reply)))
    /\ ((forall a, fst (analyze_sentiment text w) <> inr a) ->
        exists detail,
          fst (analyze_sentiment text w) = inl (HTTPException 500 detail))
    /\ sent (snd (analyze_sentiment text w)) = sent w ++ [generate_request text].
Proof.
  intros text w Ht.
  rewrite analyze_sentiment_result, result_of_spec, Ht.
  split; [|split].
  - split.
    + intros [a E].
      destruct (string_reply _) as [reply|] eqn:S; [|discriminate].
      apply string_reply_Some in S. destruct S as [fields [S L]].
      now exists fields, reply.
    + intros [fields [reply [S L]]].
      assert (string_reply (net w (sent w) (generate_request text)) = Some reply)
        as -> by (apply string_reply_Some; now exists fields).
      eexists; reflexivity.
  - intros H. destruct (string_reply _) as [reply|].
    + exfalso. eapply H. reflexivity.
    + eexists; reflexivity.
  - now apply analyze_sentiment_sent.
Qed.

Lemma analyze_sentiment_success_iff_witness :
  exists detail,
    fst (@analyze_sentiment basic_latin (py "Great!")
           (answering (inr (mkResponse 503 (inr JNull)))))
    = inl (HTTPException 500 detail).
Proof.
  apply (proj1 (proj2 (analyze_sentiment_success_iff basic_latin
           (py "Great!") (answering (inr (mkResponse 503 (inr JNull))))
           eq_refl))).
  intros a. discriminate.
Defined.

(** C5 as stated fails: the answer 200 with the body [{"response": null}]
    decodes to JSON with a "response" field, and the call fails with an
    error 500. *)
Lemma null_response_field_fails :
  has_response_field
    (inr (mkResponse 200 (inr (JObj [(py "response", JNull)])))) = true
  /\ fst (@analyze_sentiment basic_latin (py "Great!") (ollama_says JNull))
     = inl (HTTPException 500 (py "An unexpected error occurred")).
Proof.
  split; reflexivity.
Qed.

(** C8: the result of [analyze_sentiment] is a function of the text and of
    the answer to its request: two calls with the same text, in worlds
    with any two histories, whose requests get the same answer return the
    same result. *)
Theorem analyze_sentiment_stateless (U : UnicodeData) :
  forall text w1 w2,
    net w1 (sent w1) (generate_request text)
    = net w2 (sent w2) (generate_request text) ->
    fst (analyze_sentiment text w1) = fst (analyze_sentiment text w2).
Proof.
  intros text w1 w2 H.
  now rewrite !analyze_sentiment_result, H.
Qed.

Lemma analyze_sentiment_stateless_witness :
  fst (@analyze_sentiment basic_latin (py "Great!")
         (ollama_says (JStr (py " positive"))))
  = fst (@analyze_sentiment basic_latin (py "Great!")
           (ollama_says_again (JStr (py " positive")))).
Proof.
  apply (analyze_sentiment_stateless basic_latin (py "Great!")
           (ollama_says (JStr (py " positive")))
           (ollama_says_again (JStr (py " positive")))).
  reflexivity.
Defined.

(** C9: a text whose stripped form is empty is refused with the error 400
    "Text cannot be empty", and the world is left as it was: no request is
    sent. *)
Theorem blank_text_rejected (U : UnicodeData) :
  forall text w,
    strip text = [] ->
    analyze_sentiment text w
    = (inl (HTTPException 400 (py "Text cannot be empty")), w)
    /\ sent (snd (analyze_sentiment text w)) = sent w.
Proof.
  intros text w H.
  assert (falsy (strip text) = true) as F by now rewrite H.
  rewrite (analyze_sentiment_blank text w F). now split.
Qed.

Lemma blank_text_rejected_witness :
  @analyze_sentiment basic_latin (py "   ") (ollama_says (JStr (py "Neutral")))
  = (inl (HTTPException 400 (py "Text cannot be empty")),
     ollama_says (JStr (py "Neutral")))
  /\ sent (snd (@analyze_sentiment basic_latin (py "   ")
                  (ollama_says (JStr (py "Neutral")))))
     = sent (ollama_says (JStr (py "Neutral"))).
Proof.
  apply (blank_text_rejected basic_latin (py "   ")
           (ollama_says (JStr (py "Neutral")))).
  reflexivity.
Defined.

(** C10: when the cleaned first line is not one of the three labels, a
    line that contains both "positive" and "negative" once lower-cased
    gives "Positive", and a line that contains neither gives "Neutral". *)
Theorem positive_takes_precedence (U : UnicodeData) :
  forall sentiment_raw,
    mem (cleaned_first_line sentiment_raw) valid_sentiments = false ->
    (contains (py "positive") (lower (cleaned_first_line sentiment_raw)) = true ->
     contains (py "negative") (lower (cleaned_first_line sentiment_raw)) = true ->
     clean_sentiment sentiment_raw = inr (py "Positive"))
    /\
    (contains (py "positive") (lower (cleaned_first_line sentiment_raw)) = false ->
     contains (py "negative") (lower (cleaned_first_line sentiment_raw)) = false ->
     clean_sentiment sentiment_raw = inr (py "Neutral")).
Proof.
  intros sentiment_raw H.
  rewrite clean_sentiment_eq, H. unfold extract_sentiment.
  split; intros P N; now rewrite P, ?N.
Qed.

Lemma positive_takes_precedence_witness :
  @clean_sentiment basic_latin (py "Not negative, rather POSITIVE")
  = inr (py "Positive")
  /\ @clean_sentiment basic_latin (py "Hard to say") = inr (py "Neutral").
Proof.
  split.
  - apply (proj1 (positive_takes_precedence basic_latin
                    (py "Not negative, rather POSITIVE") eq_refl));
      reflexivity.
  - apply (proj2 (positive_takes_precedence basic_latin
                    (py "Hard to say") eq_refl));
      reflexivity.
Defined.

(** ** The health check *)

Lemma health_check_run (w : world) :
  health_check w
  = (inr (match net w (sent w) tags_request with
          | inl e => mkHealth (py "healthy") (py "disconnected") false (Some e)
          | inr r =>
              if Z.eqb (status_code r) 200 then
                match scan_models (json_result r) with
                | inr found => mkHealth (py "healthy") (py "connected") found None
                | inl e => mkHealth (py "healthy") (py "disconnected") false (Some e)
                end
              else mkHealth (py "healthy") (py "error") false None
          end),
     mkWorld (net w) (sent w ++ [tags_request]) (logged w) (shown w)).
Proof.
  destruct w as [nt st lg sh].
  cbv [health_check try_except bind requests_get send response_json lift ret
       net sent logged shown scan_models].
  fold tags_request.
  destruct (nt st tags_request) as [e | [status [e | models]]]; simpl.
  - reflexivity.
  - now destruct (status =? 200).
  - destruct (status =? 200); [|reflexivity].
    destruct (getitem models (py "models")) as [e | listed]; [reflexivity|].
    destruct (iterate listed) as [e | items]; [reflexivity|].
    now destruct (any_mistral items).
Qed.

(** C6, as amended: the health check pings the inference service with one
    GET and always returns a result; the result always reports
    api_status "healthy"; it reports "connected", with the flag
    mistral_available, exactly when the ping returned status 200 and the
    list of models could be read from its body; "error" exactly when the
    ping returned another status; "disconnected" exactly when the ping
    raised or the body of a 200 answer could not be read. *)
Theorem health_check_reports :
  forall w, exists h,
    health_check w
    = (inr h, mkWorld (net w) (sent w ++ [tags_request]) (logged w) (shown w))
    /\ api_status h = py "healthy"
    /\ (ollama_status h = py "connected" <->
        exists r found,
          net w (sent w) tags_request = inr r /\ status_code r = 200 /\
          scan_models (json_result r) = inr found /\
          mistral_available h = found)
    /\ (ollama_status h = py "error" <->
        exists r, net w (sent w) tags_request = inr r /\ status_code r <> 200)
    /\ (ollama_status h = py "disconnected" <->
        (exists e, net w (sent w) tags_request = inl e) \/
        (exists r e,
            net w (sent w) tags_request = inr r /\ status_code r = 200 /\
            scan_models (json_result r) = inl e))
    /\ (ollama_status h <> py "connected" -> mistral_available h = false).
Proof.
  intros w. eexists. split; [apply health_check_run|].
  destruct (net w (sent w) tags_request) as [e | r] eqn:A.
  - simpl. refine (conj eq_refl (conj _ (conj _ (conj _ _)))).
    + split; [discriminate|]. intros [r [found [H _]]]. discriminate.
    + split; [discriminate|]. intros [r [H _]]. discriminate.
    + split; [|reflexivity]. intros _. left. now exists e.
    + reflexivity.
  - destruct (Z.eqb_spec (status_code r) 200) as [S | S];
      [destruct (scan_models (json_result r)) as [e | found] eqn:M|];
      simpl; refine (conj eq_refl (conj _ (conj _ (conj _ _)))).
    + split; [discriminate|].
      intros [r' [found [[= <-] [_ [M' _]]]]]. congruence.
    + split; [discriminate|]. intros [r' [[= <-] S']]. contradiction.
    + split; [|reflexivity]. intros _. right. now exists r, e.
    + reflexivity.
    + split; [|reflexivity]. intros _. now exists r, found.
    + split; [discriminate|]. intros [r' [[= <-] S']]. contradiction.
    + split; [discriminate|].
      intros [[e H] | [r' [e [[= <-] [_ M']]]]]; congruence.
    + intros H. now contradiction H.
    + split; [discriminate|].
      intros [r' [found [[= <-] [S' _]]]]. contradiction.
    + split; [|reflexivity]. intros _. now exists r.
    + split; [discriminate|].
      intros [[e H] | [r' [e [[= <-] [S' _]]]]]; [discriminate | contradiction].
    + reflexivity.
Qed.

(** C6 as stated fails: the ping returns status 200 with a body that is
    not JSON, and the report is "disconnected", not "connected". *)
Lemma unreadable_tags_disconnected :
  exists h w',
    health_check
      (answering (inr (mkResponse 200 (inl (RequestException ReqJSONDecodeError)))))
    = (inr h, w')
    /\ ollama_status h = py "disconnected"
    /\ ollama_status h <> py "connected".
Proof.
  eexists; eexists. split; [reflexivity|]. split; [reflexivity | discriminate].
Qed.

(** ** The page *)

Import Frontend.

Lemma css_of_positive (l : pystr) :
  css_of l = sentiment_positive <-> l = py "positive".
Proof.
  unfold css_of. destruct (eqb l (py "positive")) eqn:P.
  - apply eqb_eq in P. now split.
  - split; [destruct (eqb l (py "negative")); discriminate|].
    intros E. apply eqb_eq in E. congruence.
Qed.

Lemma css_of_negative (l : pystr) :
  css_of l = sentiment_negative <-> l = py "negative".
Proof.
  unfold css_of. destruct (eqb l (py "positive")) eqn:P.
  - apply eqb_eq in P. subst. split; discriminate.
  - destruct (eqb l (py "negative")) eqn:N.
    + apply eqb_eq in N. now split.
    + split; [discriminate|]. intros E. apply eqb_eq in E. congruence.
Qed.

Lemma css_of_neutral (l : pystr) :
  css_of l = sentiment_neutral <-> l <> py "positive" /\ l <> py "negative".
Proof.
  unfold css_of. destruct (eqb l (py "positive")) eqn:P.
  - apply eqb_eq in P. split; [discriminate | intros [H _]; contradiction].
  - destruct (eqb l (py "negative")) eqn:N.
    + apply eqb_eq in N. split; [discriminate | intros [_ H]; contradiction].
    + split; [|reflexivity]. intros _.
      split; intros E; apply eqb_eq in E; congruence.
Qed.

(** C3, as amended: for a text that is not blank and a 200 answer of the
    API service that decodes to an object whose "sentiment" is a string,
    or is missing (then the label is "Unknown"), the page shows the label
    in a block whose class is a function of the lower-cased label alone:
    the positive class if and only if it is "positive", the negative
    class if and only if it is "negative", the neutral class in every
    other case. *)
Theorem label_styling (U : UnicodeData) :
  forall text_input w fields label,
    falsy (strip text_input) = false ->
    net w (sent w) (analyze_request text_input)
    = inr (mkResponse 200 (inr (JObj fields))) ->
    label_of fields label ->
    shown (snd (analyze_button text_input w))
    = shown w ++ [UiSuccess;
                  UiSentiment (css_of (lower label)) label;
                  UiDetails (List.length text_input)
                            (lookup (py "raw_response") fields)]
    /\ (css_of (lower label) = sentiment_positive <-> lower label = py "positive")
    /\ (css_of (lower label) = sentiment_negative <-> lower label = py "negative")
    /\ (css_of (lower label) = sentiment_neutral <->
        lower label <> py "positive" /\ lower label <> py "negative").
Proof.
  intros text_input w fields label Ht Hn Hl.
  split; [|split; [apply css_of_positive
                  |split; [apply css_of_negative | apply css_of_neutral]]].
  destruct w as [nt st lg sh].
  cbv [analyze_button try_except bind requests_post send ret
       net sent logged shown] in *.
  rewrite Ht. fold (analyze_request text_input). rewrite Hn.
  cbv [status_code show_result response_json lift json_result bind dict_get].
  simpl Z.eqb. cbv iota.
  destruct Hl as [L | [L ->]]; rewrite L; simpl;
    now rewrite <- !app_assoc.
Qed.

Lemma label_styling_witness :
  shown (snd (@analyze_button basic_latin (py "Great!")
                (api_says (to_fields
                   (mkAnalysis (py "Positive") (py "Great!") (py "Positive"))))))
  = [] ++ [UiSuccess;
           UiSentiment sentiment_positive (py "Positive");
           UiDetails 6 (Some (JStr (py "Positive")))]
  /\ shown (snd (@analyze_button basic_latin (py "Great!") (api_says [])))
     = [] ++ [UiSuccess;
              UiSentiment sentiment_neutral (py "Unknown");
              UiDetails 6 None].
Proof.
  split.
  - apply (label_styling basic_latin (py "Great!")
             (api_says (to_fields
                (mkAnalysis (py "Positive") (py "Great!") (py "Positive"))))
             (to_fields
                (mkAnalysis (py "Positive") (py "Great!") (py "Positive")))
             (py "Positive") eq_refl eq_refl).
    left. reflexivity.
  - apply (label_styling basic_latin (py "Great!") (api_says []) []
             (py "Unknown") eq_refl eq_refl).
    right. split; reflexivity.
Defined.

(** C3 as stated fails: an answer with status 200 whose "sentiment" is
    null is a successful response of the API service, and the page shows
    no label for it, in any styling: after the notice of success it
    reports an unexpected error. *)
Lemma null_sentiment_shows_no_label :
  net (api_says [(py "sentiment", JNull)]) [] (analyze_request (py "Great!"))
  = inr (mkResponse 200 (inr (JObj [(py "sentiment", JNull)])))
  /\ shown (snd (@analyze_button basic_latin (py "Great!")
                   (api_says [(py "sentiment", JNull)])))
     = [UiSuccess; UiError (UnexpectedError AttributeError)]
  /\ forall css label,
       ~ In (UiSentiment css label)
            (shown (snd (@analyze_button basic_latin (py "Great!")
                           (api_says [(py "sentiment", JNull)])))).
Proof.
  split; [reflexivity|]. split; [reflexivity|].
  intros css label [H | [H | []]]; discriminate.
Qed.

Lemma to_fields_label (a : analysis) : label_of (to_fields a) (sentiment a).
Proof. left. reflexivity. Qed.

(** ** The launcher *)

Module LauncherProofs.
Import Launcher LauncherSpec.

Lemma backend_answers_run (w : world) :
  backend_answers w
  = (inr (answers_200 (sys w) (calls w)),
     mkWorld (sys w) (calls w ++ [probe]) (self w)).
Proof.
  destruct w as [o h a].
  cbv [backend_answers try_except bind requests_get ask ret answers_200
       sys calls self probe].
  now destruct (get_result o h BACKEND_ROOT 2).
Qed.

Ltac run_stop :=
  cbv [stop_process try_except try_except_if bind graceful ask kill wait
       ret raise unit_or_raise sys calls self is_TimeoutExpired].

Ltac stop_case :=
  eexists; split; [rewrite <- ?app_assoc; simpl; reflexivity|];
  split; [split; intro | split; intros [? ?]];
  first
    [ discriminate
    | congruence
    | reflexivity
    | eexists; reflexivity
    | simpl; tauto
    | left; split; reflexivity
    | right; left; discriminate
    | right; right; split;
        [reflexivity | eexists; split; [reflexivity | discriminate]]
    | exfalso;
      match goal with H : In _ _ |- _ => simpl in H; intuition discriminate end
    | exfalso;
      match goal with
      | H : _ \/ _ |- _ =>
          destruct H as [[? ?] | [? | [? [? [? ?]]]]]; congruence
      end ].

Lemma stop_process_spec (c : child) (w : world) :
  exists rest,
    stop_process c w
    = (inr tt,
       mkWorld (sys w) (calls w ++ graceful_call (sys w) c :: rest) (self w))
    /\ (In (Kill c) rest <->
        times_out (sys w) (calls w) c \/ stop_errs (sys w) (calls w) c)
    /\ (exits_in_time (sys w) (calls w) c -> rest = [Wait c (Some 5)])
    /\ (times_out (sys w) (calls w) c ->
        exists rest', rest = Wait c (Some 5) :: Kill c :: rest').
Proof.
  destruct w as [o h a].
  unfold times_out, stop_errs, exits_in_time, wait5. simpl sys; simpl calls.
  run_stop. unfold graceful_call. simpl self.
  destruct (windows o).
  all: destruct (signal_result o h c) as [e0|];
    [destruct (kill_result _ _ c); stop_case|].
  all: match goal with
       | |- context [wait_result ?oo ?hh ?cc (Some 5)] =>
           destruct (wait_result oo hh cc (Some 5)) as [e1|] eqn:W5
       end; [|stop_case].
  all: destruct e1; simpl.
  all: try (destruct (kill_result _ _ _); stop_case).
  all: destruct (kill_result o _ c) as [e2|]; simpl;
    [destruct (kill_result o _ c); stop_case|].
  all: destruct (wait_result o _ c None) as [e3|]; simpl;
    [destruct (kill_result o _ c); stop_case | stop_case].
Qed.


(** Stopping the services, whatever was started. *)
Lemma stop_services_run (w : world) :
  exists tb tf,
    stop_services w
    = (inr tt, mkWorld (sys w) (calls w ++ tb ++ tf) (self w))
    /\ stops_child (sys w) (backend_process (self w)) backend (calls w) tb
    /\ stops_child (sys w) (frontend_process (self w)) frontend
         (calls w ++ tb) tf.
Proof.
  unfold stop_services, bind at 1 2, get_self.
  destruct (backend_process (self w)) eqn:B.
  - destruct (stop_process_spec backend w) as [rb [Eb [Kb _]]].
    unfold bind. rewrite Eb. simpl self.
    destruct (frontend_process (self w)) eqn:F.
    + destruct (stop_process_spec frontend
                  (mkWorld (sys w) (calls w ++ graceful_call (sys w) backend :: rb)
                           (self w))) as [rf [Ef [Kf _]]].
      rewrite Ef. simpl sys; simpl calls; simpl self.
      exists (graceful_call (sys w) backend :: rb),
             (graceful_call (sys w) frontend :: rf).
      split; [now rewrite <- app_assoc|].
      split; [exists rb | exists rf]; now split.
    + exists (graceful_call (sys w) backend :: rb), [].
      split; [now rewrite app_nil_r|].
      split; [exists rb; now split | reflexivity].
  - unfold bind, ret.
    destruct (frontend_process (self w)) eqn:F.
    + destruct (stop_process_spec frontend w) as [rf [Ef [Kf _]]].
      rewrite Ef.
      exists [], (graceful_call (sys w) frontend :: rf).
      split; [reflexivity|].
      split; [reflexivity|]. exists rf. rewrite app_nil_r. now split.
    + exists [], []. destruct w; simpl. rewrite app_nil_r.
      now repeat split.
Qed.

Lemma stop_services_returns (w : world) :
  exists w', stop_services w = (inr tt, w').
Proof.
  destruct (stop_services_run w) as [tb [tf [E _]]]. eexists. exact E.
Qed.

(** The world the handler leaves. *)
Lemma handled_run (w : world) :
  exists tb tf,
    handled w = mkWorld (sys w) (calls w ++ tb ++ tf) (stopping (self w))
    /\ stops_child (sys w) (backend_process (self w)) backend (calls w) tb
    /\ stops_child (sys w) (frontend_process (self w)) frontend
         (calls w ++ tb) tf.
Proof.
  unfold handled.
  destruct (stop_services_run
              (mkWorld (sys w) (calls w) (stopping (self w))))
    as [tb [tf [E [Sb Sf]]]].
  rewrite E. simpl in *. now exists tb, tf.
Qed.

Lemma signal_handler_run {A : Type} (w : world) :
  @signal_handler A w = (inl (Exit 0), handled w).
Proof.
  unfold signal_handler, handled, and_then, plain, get_self, set_self,
    sys_exit, stopping.
  simpl.
  destruct (stop_services_returns
              (mkWorld (sys w) (calls w)
                 (mkAppStarter (backend_process (self w))
                    (frontend_process (self w)) false))) as [w2 E].
  now rewrite E.
Qed.

Lemma sleep_run (seconds : Z) (w : world) :
  sleep seconds w
  = if signalled (sys w) (calls w)
    then (inl (Exit 0),
          handled (mkWorld (sys w) (calls w ++ [Sleep seconds]) (self w)))
    else (inr tt, mkWorld (sys w) (calls w ++ [Sleep seconds]) (self w)).
Proof.
  unfold sleep, and_then, plain, ask.
  destruct (signalled (sys w) (calls w));
    [apply signal_handler_run | reflexivity].
Qed.

Lemma and_then_run {A B : Type} (c : L A) (k : A -> L B) (w : world) :
  and_then c k w
  = match c w with
    | (inr a, w1) => k a w1
    | (inl h, w1) => (inl h, w1)
    end.
Proof. reflexivity. Qed.

Lemma and_then_plain {A B : Type} (c : M world A) (k : A -> L B) (w : world) :
  and_then (plain c) k w
  = match c w with
    | (inr a, w1) => k a w1
    | (inl e, w1) => (inl (Raise e), w1)
    end.
Proof. unfold and_then, plain. now destruct (c w) as [[e | a] w1]. Qed.

Lemma and_then_get_self {B : Type} (k : AppStarter -> L B) (w : world) :
  and_then (plain get_self) k w = k (self w) w.
Proof. reflexivity. Qed.

(** *** Computations that leave the fields alone *)

Lemma finishes_done {A : Type} (P : call -> bool) (a : A) :
  finishes P (done a).
Proof.
  intros [o h s]. exists []. split; [reflexivity|]. left.
  exists (inr a). simpl. rewrite app_nil_r. split; [reflexivity | discriminate].
Qed.

Lemma finishes_throw {A : Type} (P : call -> bool) (e : exn) :
  finishes P (@throw A e).
Proof.
  intros [o h s]. exists []. split; [reflexivity|]. left.
  exists (inl (Raise e)). simpl. rewrite app_nil_r.
  split; [reflexivity | discriminate].
Qed.

Lemma finishes_ask {A : Type} (P : call -> bool) (c : call)
    (f : os -> list call -> exn + A) :
  P c = true -> finishes P (plain (ask c f)).
Proof.
  intros H w. exists [c]. split; [simpl; now rewrite H|]. left.
  unfold plain, ask.
  destruct (f (sys w) (calls w)); eexists; (split; [reflexivity | discriminate]).
Qed.

Lemma finishes_lift {A : Type} (P : call -> bool) (r : exn + A) :
  finishes P (plain (lift r)).
Proof.
  intros [o h s]. exists []. split; [reflexivity|]. left.
  unfold plain, lift. simpl. rewrite app_nil_r.
  destruct r; eexists; (split; [reflexivity | discriminate]).
Qed.

Lemma finishes_and_then {A B : Type} (P : call -> bool) (c : L A)
    (k : A -> L B) :
  finishes P c -> (forall a, finishes P (k a)) -> finishes P (and_then c k).
Proof.
  intros Hc Hk w. rewrite and_then_run.
  destruct (Hc w) as [t1 [P1 [[r [E NE]] | E]]]; rewrite E.
  - destruct r as [h | a].
    + exists t1. split; [exact P1|]. left. exists (inl h).
      split; [reflexivity|]. intros code [= ->]. now apply (NE code).
    + destruct (Hk a (mkWorld (sys w) (calls w ++ t1) (self w)))
        as [t2 [P2 C]].
      simpl sys in C; simpl calls in C; simpl self in C.
      rewrite <- app_assoc in C.
      exists (t1 ++ t2). split; [now rewrite forallb_app, P1, P2 | exact C].
  - exists t1. split; [exact P1 | now right].
Qed.

Lemma finishes_except {A : Type} (P : call -> bool) (c : L A)
    (h : exn -> L A) :
  finishes P c -> (forall e, finishes P (h e)) ->
  finishes P (except_Exception c h).
Proof.
  intros Hc Hh w. unfold except_Exception.
  destruct (Hc w) as [t1 [P1 [[r [E NE]] | E]]]; rewrite E.
  - destruct r as [[e | code] | a].
    + destruct (Hh e (mkWorld (sys w) (calls w ++ t1) (self w)))
        as [t2 [P2 C]].
      simpl sys in C; simpl calls in C; simpl self in C.
      rewrite <- app_assoc in C.
      exists (t1 ++ t2). split; [now rewrite forallb_app, P1, P2 | exact C].
    + now contradiction (NE code).
    + exists t1. split; [exact P1|]. left. exists (inr a).
      split; [reflexivity | discriminate].
  - exists t1. split; [exact P1 | now right].
Qed.

Lemma finishes_if {A : Type} (P : call -> bool) (b : bool) (c1 c2 : L A) :
  finishes P c1 -> finishes P c2 -> finishes P (if b then c1 else c2).
Proof. now destruct b. Qed.

Lemma finishes_input (P : call -> bool) :
  P Input = true -> finishes P input.
Proof.
  intros H w. exists [Input]. split; [simpl; now rewrite H|].
  unfold input. rewrite and_then_plain. unfold ask.
  destruct (input_result (sys w) (calls w)) as [[e |] | s].
  - left. eexists. split; [reflexivity | discriminate].
  - right. apply signal_handler_run.
  - left. eexists. split; [reflexivity | discriminate].
Qed.

Ltac finishes_steps :=
  repeat first
    [ assumption
    | apply finishes_input; reflexivity
    | apply finishes_and_then; [|intros ?]
    | apply finishes_except; [|intros ?]
    | apply finishes_if
    | apply finishes_done
    | apply finishes_throw
    | apply finishes_lift
    | apply finishes_ask; reflexivity ].

Section WithUnicode.
Context {U : UnicodeData}.

Lemma check_requirements_finishes : finishes asks_only check_requirements.
Proof.
  assert (finishes asks_only continue_anyway) as H
    by (unfold continue_anyway; finishes_steps).
  unfold check_requirements, exists_, import_packages, requests_get.
  finishes_steps.
Qed.

(** The readiness loop: the first answer with status 200 ends it, and so
    does a signal in the sleep that follows a probe that failed. *)
Lemma poll_backend_spec (n : nat) :
  forall w,
    (exists k,
        (k < n)%nat /\
        answers_200 (sys w) (calls w ++ failed_probes k) = true /\
        (forall j, (j < k)%nat ->
           answers_200 (sys w) (calls w ++ failed_probes j) = false) /\
        poll_backend n w
        = (inr true,
           mkWorld (sys w) (calls w ++ failed_probes k ++ [probe]) (self w)))
    \/
    ((forall j, (j < n)%nat ->
        answers_200 (sys w) (calls w ++ failed_probes j) = false) /\
     poll_backend n w
     = (inr false, mkWorld (sys w) (calls w ++ failed_probes n) (self w)))
    \/
    (exists k,
        (k < n)%nat /\
        (forall j, (j <= k)%nat ->
           answers_200 (sys w) (calls w ++ failed_probes j) = false) /\
        signalled (sys w) (calls w ++ failed_probes k ++ [probe]) = true /\
        poll_backend n w
        = (inl (Exit 0),
           handled (mkWorld (sys w) (calls w ++ failed_probes (S k)) (self w)))).
Proof.
  induction n as [|n IH]; intros w.
  - right. left. split; [intros j Hj; lia|].
    destruct w; simpl. now rewrite app_nil_r.
  - cbn [poll_backend]. rewrite and_then_plain, backend_answers_run.
    destruct (answers_200 (sys w) (calls w)) eqn:A.
    + left. exists 0%nat. simpl. rewrite app_nil_r.
      repeat split; try lia; assumption.
    + rewrite and_then_run, sleep_run. cbn [sys calls self].
      destruct (signalled (sys w) (calls w ++ [probe])) eqn:Sg.
      * right. right. exists 0%nat. simpl.
        split; [lia|]. split.
        { intros j Hj. replace j with 0%nat by lia. simpl.
          now rewrite app_nil_r. }
        split; [exact Sg|]. now rewrite <- app_assoc.
      * assert (forall k, ((calls w ++ [probe]) ++ [Sleep 1]) ++ failed_probes k
                          = calls w ++ failed_probes (S k)) as R
          by (intros k; simpl; now rewrite <- !app_assoc).
        destruct (IH (mkWorld (sys w) ((calls w ++ [probe]) ++ [Sleep 1]) (self w)))
          as [[k [Hk [Ak [Bk E]]]] | [[B E] | [k [Hk [Bk [Sk E]]]]]];
          cbn [sys calls self] in *.
        -- left. exists (S k). split; [lia|]. split; [now rewrite <- R|].
           split.
           ++ intros [|j] Hj; [simpl; now rewrite app_nil_r|].
              rewrite <- R. apply Bk. lia.
           ++ rewrite E. f_equal. f_equal.
              simpl. now rewrite <- !app_assoc.
        -- right. left. split.
           ++ intros [|j] Hj; [simpl; now rewrite app_nil_r|].
              rewrite <- R. apply B. lia.
           ++ rewrite E. f_equal. f_equal. apply R.
        -- right. right. exists (S k). split; [lia|]. split.
           ++ intros [|j] Hj; [simpl; now rewrite app_nil_r|].
              rewrite <- R. apply Bk. lia.
           ++ split.
              ** rewrite <- Sk. f_equal. simpl. now rewrite <- !app_assoc.
              ** rewrite E. f_equal. f_equal. f_equal. apply R.
Qed.

Lemma start_service_run (c : child) (grace : Z) (w : world) :
  start_service c grace w
  = match popen_result (sys w) (calls w) c with
    | Some _ =>
        (inr false,
         mkWorld (sys w) (calls w ++ [Popen c (windows (sys w))]) (self w))
    | None =>
        if signalled (sys w) (calls w ++ [Popen c (windows (sys w))])
        then (inl (Exit 0),
              handled (mkWorld (sys w)
                         (calls w ++ [Popen c (windows (sys w)); Sleep grace])
                         (with_process c (self w))))
        else if running_result (sys w)
                  (calls w ++ [Popen c (windows (sys w)); Sleep grace]) c
        then (inr true,
              mkWorld (sys w) (calls w ++ start_calls (sys w) c grace)
                (with_process c (self w)))
        else (inr false,
              mkWorld (sys w)
                (calls w ++ start_calls (sys w) c grace ++ [Communicate c])
                (with_process c (self w)))
    end.
Proof.
  destruct w as [o h a]. cbn [sys calls self].
  unfold start_service, except_Exception.
  rewrite and_then_plain. unfold popen at 1, ask at 1. cbn [sys calls self].
  destruct (popen_result o h c) as [e|]; cbn [unit_or_raise]; [reflexivity|].
  rewrite and_then_plain.
  assert (set_process c (mkWorld o (h ++ [Popen c (windows o)]) a)
          = (inr tt, mkWorld o (h ++ [Popen c (windows o)]) (with_process c a)))
    as -> by now destruct c.
  rewrite and_then_run, sleep_run. cbn [sys calls self].
  assert (forall x : call, (h ++ [Popen c (windows o)]) ++ [x]
                           = h ++ [Popen c (windows o); x]) as R
    by (intros x; now rewrite <- app_assoc).
  rewrite R.
  destruct (signalled o (h ++ [Popen c (windows o)])); [reflexivity|].
  rewrite and_then_plain. unfold poll_is_None at 1, ask at 1.
  cbn [sys calls self].
  assert (forall l (x : call),
             (h ++ [Popen c (windows o); Sleep grace]) ++ x :: l
             = h ++ Popen c (windows o) :: Sleep grace :: x :: l) as R2
    by (intros l x; now rewrite <- app_assoc).
  unfold start_calls. cbn [app].
  destruct (running_result o (h ++ [Popen c (windows o); Sleep grace]) c).
  { unfold done. now rewrite R2. }
  rewrite and_then_plain. unfold communicate, ask. cbn [sys calls self].
  rewrite R2, <- app_assoc. cbn [app].
  now destruct (communicate_result o _ c).
Qed.

(** The start of a service, case by case. *)
Lemma start_service_cases (c : child) (grace : Z) (w : world) :
  (exists e,
      popen_result (sys w) (calls w) c = Some e /\
      start_service c grace w
      = (inr false,
         mkWorld (sys w) (calls w ++ [Popen c (windows (sys w))]) (self w)))
  \/
  (popen_result (sys w) (calls w) c = None /\
   signalled (sys w) (calls w ++ [Popen c (windows (sys w))]) = true /\
   start_service c grace w
   = (inl (Exit 0),
      handled (mkWorld (sys w)
                 (calls w ++ [Popen c (windows (sys w)); Sleep grace])
                 (with_process c (self w)))))
  \/
  (popen_result (sys w) (calls w) c = None /\
   signalled (sys w) (calls w ++ [Popen c (windows (sys w))]) = false /\
   running_result (sys w)
     (calls w ++ [Popen c (windows (sys w)); Sleep grace]) c = true /\
   start_service c grace w
   = (inr true,
      mkWorld (sys w) (calls w ++ start_calls (sys w) c grace)
        (with_process c (self w))))
  \/
  (popen_result (sys w) (calls w) c = None /\
   signalled (sys w) (calls w ++ [Popen c (windows (sys w))]) = false /\
   running_result (sys w)
     (calls w ++ [Popen c (windows (sys w)); Sleep grace]) c = false /\
   start_service c grace w
   = (inr false,
      mkWorld (sys w)
        (calls w ++ start_calls (sys w) c grace ++ [Communicate c])
        (with_process c (self w)))).
Proof.
  rewrite start_service_run.
  destruct (popen_result (sys w) (calls w) c) as [e|].
  { left. now exists e. }
  right.
  destruct (signalled (sys w) (calls w ++ [Popen c (windows (sys w))])).
  { left. now repeat split. }
  right.
  destruct (running_result (sys w)
              (calls w ++ [Popen c (windows (sys w)); Sleep grace]) c);
    [left | right]; now repeat split.
Qed.

(** The monitoring loop: it goes on, is left, or is ended by a signal. *)
Lemma monitor_spec (n : nat) :
  forall w, exists tm,
    forallb watches tm = true /\
    (monitor n w = (inr None, mkWorld (sys w) (calls w ++ tm) (self w))
     \/ monitor n w = (inr (Some tt), mkWorld (sys w) (calls w ++ tm) (self w))
     \/ monitor n w
        = (inl (Exit 0),
           handled (mkWorld (sys w) (calls w ++ tm) (self w)))).
Proof.
  induction n as [|n IH]; intros [o h a].
  - exists []. split; [reflexivity|]. left. simpl. now rewrite app_nil_r.
  - cbn [monitor]. rewrite and_then_get_self. cbn [sys calls self].
    destruct (running a); cbn [negb].
    2:{ exists []. split; [reflexivity|]. right; left.
        unfold done. simpl. now rewrite app_nil_r. }
    rewrite and_then_run, sleep_run. cbn [sys calls self].
    destruct (signalled o h).
    { exists [Sleep 1]. split; [reflexivity|]. now right; right. }
    rewrite and_then_get_self. cbn [self].
    rewrite and_then_run.
    assert (forall (b : bool) (c : child) (w : world),
               (if b then plain (poll_is_None c) else done true) w
               = if b
                 then (inr (running_result (sys w) (calls w) c),
                       mkWorld (sys w) (calls w ++ [Poll c]) (self w))
                 else (inr true, w)) as PR
      by (intros [|] c w; reflexivity).
    rewrite PR. cbn [sys calls self].
    destruct (backend_process a) eqn:B.
    + destruct (running_result o (h ++ [Sleep 1]) backend); cbn [negb].
      2:{ exists [Sleep 1; Poll backend]. split; [reflexivity|]. right; left.
          unfold done. now rewrite <- app_assoc. }
      rewrite and_then_run, PR. cbn [sys calls self].
      destruct (frontend_process a) eqn:F.
      * destruct (running_result o _ frontend); cbn [negb].
        2:{ exists [Sleep 1; Poll backend; Poll frontend].
            split; [reflexivity|]. right; left.
            unfold done. now rewrite <- !app_assoc. }
        destruct (IH (mkWorld o (((h ++ [Sleep 1]) ++ [Poll backend])
                                   ++ [Poll frontend]) a)) as [tm [Pm C]].
        cbn [sys calls self] in C.
        exists (Sleep 1 :: Poll backend :: Poll frontend :: tm).
        split; [exact Pm|].
        destruct C as [C | [C | C]]; rewrite C;
          [left | right; left | right; right];
          now rewrite <- !app_assoc.
      * cbn [negb].
        destruct (IH (mkWorld o ((h ++ [Sleep 1]) ++ [Poll backend]) a))
          as [tm [Pm C]].
        cbn [sys calls self] in C.
        exists (Sleep 1 :: Poll backend :: tm). split; [exact Pm|].
        destruct C as [C | [C | C]]; rewrite C;
          [left | right; left | right; right];
          now rewrite <- !app_assoc.
    + cbn [negb]. rewrite and_then_run, PR. cbn [sys calls self].
      destruct (frontend_process a) eqn:F.
      * destruct (running_result o _ frontend); cbn [negb].
        2:{ exists [Sleep 1; Poll frontend].
            split; [reflexivity|]. right; left.
            unfold done. now rewrite <- !app_assoc. }
        destruct (IH (mkWorld o ((h ++ [Sleep 1]) ++ [Poll frontend]) a))
          as [tm [Pm C]].
        cbn [sys calls self] in C.
        exists (Sleep 1 :: Poll frontend :: tm). split; [exact Pm|].
        destruct C as [C | [C | C]]; rewrite C;
          [left | right; left | right; right];
          now rewrite <- !app_assoc.
      * cbn [negb].
        destruct (IH (mkWorld o (h ++ [Sleep 1]) a)) as [tm [Pm C]].
        cbn [sys calls self] in C.
        exists (Sleep 1 :: tm). split; [exact Pm|].
        destruct C as [C | [C | C]]; rewrite C;
          [left | right; left | right; right];
          now rewrite <- !app_assoc.
Qed.

Lemma ending_at (o : os) (r : halt + option bool) (w w' : world) :
  ending o r w -> w = w' -> ending o r w'.
Proof. now intros H <-. Qed.

Lemma world_eq (o : os) (h h' : list call) (a : AppStarter) :
  h = h' -> mkWorld o h a = mkWorld o h' a.
Proof. now intros <-. Qed.

Ltac calls_eq :=
  unfold launch_calls, ready_calls, start_calls;
  rewrite <- ?app_assoc; cbn [app]; reflexivity.

Ltac same_world :=
  first [ apply world_eq; calls_eq
        | apply (f_equal handled); apply world_eq; calls_eq ].

Ltac stop_then_done ES :=
  rewrite and_then_plain;
  match goal with
  | |- context [stop_services ?w] =>
      destruct (stop_services_returns w) as [? ES]
  end;
  rewrite ES; unfold done; cbn [fst snd].

(** Every run ends in one of the ways of [ending]. *)
Lemma run_cases (rounds : nat) (o : os) :
  ending o (fst (run rounds (init o))) (snd (run rounds (init o))).
Proof.
  unfold run. rewrite and_then_run.
  destruct (check_requirements_finishes (init o))
    as [t0 [P0 [[r0 [E0 NE]] | E0]]];
    rewrite E0; cbn [init sys calls self app fst snd].
  2:{ exact (interrupted_asking o t0 P0). }
  destruct r0 as [[e | code] | [|]]; cbn [negb fst snd].
  - exact (refused o t0 _ P0 (or_intror (ex_intro _ e eq_refl))).
  - now contradiction (NE code).
  - rewrite and_then_run. unfold start_backend.
    destruct (start_service_cases backend 3
                (mkWorld o t0 (mkAppStarter false false true)))
      as [[e [_ E1]] | [[_ [_ E1]] | [[_ [_ [_ E1]]] | [_ [_ [_ E1]]]]]];
      rewrite E1; cbn [sys calls self fst snd negb with_process
                       backend_process frontend_process running].
    + exact (backend_failed o t0 [] _ P0 eq_refl).
    + exact (interrupted_starting_backend o t0 P0).
    + rewrite and_then_run. unfold wait_for_backend.
      destruct (poll_backend_spec 30
                  (mkWorld o (t0 ++ start_calls o backend 3)
                     (mkAppStarter true false true)))
        as [[k [Hk [Ak [Bk E2]]]] | [[B2 E2] | [k [Hk [_ [_ E2]]]]]];
        rewrite E2; cbn [sys calls self fst snd negb] in *.
      * assert (ready_after o (t0 ++ start_calls o backend 3) k) as RA
          by (split; [exact Hk | split; [exact Ak | exact Bk]]).
        rewrite and_then_run. unfold start_frontend.
        match goal with
        | |- context [start_service frontend 4 ?w] =>
            destruct (start_service_cases frontend 4 w)
              as [[e [_ E3]] | [[_ [_ E3]] | [[_ [_ [_ E3]]] | [_ [_ [_ E3]]]]]]
        end;
          rewrite E3; cbn [sys calls self fst snd negb with_process
                           backend_process frontend_process running].
        -- stop_then_done ES.
           apply (frontend_failed o t0 [] k (mkAppStarter true false true) _
                    P0 RA eq_refl eq_refl).
           rewrite <- ES. f_equal. same_world.
        -- apply (ending_at _ _ _ _ (interrupted_starting_frontend o t0 k P0 RA)).
           same_world.
        -- rewrite and_then_run.
           match goal with
           | |- context [monitor rounds ?w] =>
               destruct (monitor_spec rounds w) as [tm [Pm [E4 | [E4 | E4]]]]
           end;
             rewrite E4; cbn [sys calls self fst snd].
           ++ apply (ending_at _ _ _ _ (watching o t0 tm k P0 RA Pm)).
              same_world.
           ++ stop_then_done ES.
              apply (child_died o t0 tm k _ P0 RA Pm).
              rewrite <- ES. f_equal. same_world.
           ++ apply (ending_at _ _ _ _ (interrupted_watching o t0 tm k P0 RA Pm)).
              same_world.
        -- stop_then_done ES.
           apply (frontend_failed o t0 [Sleep 4; Poll frontend; Communicate frontend]
                    k (mkAppStarter true true true) _ P0 RA eq_refl eq_refl).
           rewrite <- ES. f_equal. same_world.
      * stop_then_done ES.
        apply (never_ready o t0 _ P0).
        -- intros j Hj. rewrite app_assoc. now apply B2.
        -- rewrite <- ES. f_equal. same_world.
      * apply (ending_at _ _ _ _ (interrupted_probing o t0 k P0 Hk)).
        same_world.
    + exact (backend_failed o t0 [Sleep 3; Poll backend; Communicate backend]
               _ P0 eq_refl).
  - exact (refused o t0 _ P0 (or_introl eq_refl)).
Qed.

Lemma run_ending (rounds : nat) (o : os) (r : halt + option bool) (w' : world) :
  run rounds (init o) = (r, w') -> ending o r w'.
Proof.
  intros R. pose proof (run_cases rounds o) as H. now rewrite R in H.
Qed.

End WithUnicode.

(** *** The children spawned so far *)













Example calm_run :
  @run basic_latin 1 (init calm)
  = (inl (Exit 0),
     mkWorld calm
       [PathExists (py "backend/main.py"); PathExists (py "frontend/app.py");
        ImportPackages; HttpGet OLLAMA_TAGS 3;
        Popen backend false; Sleep 3; Poll backend;
        HttpGet BACKEND_ROOT 2;
        Popen frontend false; Sleep 4; Poll frontend;
        Sleep 1;
        Terminate backend; Wait backend (Some 5);
        Terminate frontend; Wait frontend (Some 5)]
       (mkAppStarter true true false)).
Proof. reflexivity. Qed.

Example hasty_run :
  @run basic_latin 1 (init hasty)
  = (inl (Exit 0),
     mkWorld hasty
       [PathExists (py "backend/main.py"); PathExists (py "frontend/app.py");
        ImportPackages; HttpGet OLLAMA_TAGS 3;
        Popen backend false; Sleep 3;
        Terminate backend; Wait backend (Some 5)]
       (mkAppStarter true false false)).
Proof. reflexivity. Qed.

Example frail_run :
  @run basic_latin 1 (init frail)
  = (inr (Some true),
     mkWorld frail
       [PathExists (py "backend/main.py"); PathExists (py "frontend/app.py");
        ImportPackages; HttpGet OLLAMA_TAGS 3;
        Popen backend false; Sleep 3; Poll backend;
        HttpGet BACKEND_ROOT 2;
        Popen frontend false; Sleep 4; Poll frontend;
        Sleep 1; Poll backend;
        Terminate backend; Wait backend (Some 5);
        Terminate frontend; Wait frontend (Some 5)]
       (mkAppStarter true true true)).
Proof. reflexivity. Qed.

End LauncherProofs.

(** * Further properties *)

(** ** More about strings *)

Section MoreStrings.
Context {U : UnicodeData}.

Lemma dropwhile_idem (p : N -> bool) (s : pystr) :
  dropwhile p (dropwhile p s) = dropwhile p s.
Proof.
  induction s as [|c r IH]; simpl; [reflexivity|].
  destruct (p c) eqn:E; [exact IH|]. simpl. now rewrite E.
Qed.

Lemma dropwhile_snoc (p : N -> bool) (l : pystr) (c : N) :
  p c = false -> exists l', dropwhile p (l ++ [c]) = l' ++ [c].
Proof.
  intros Hc. induction l as [|a l [l' IH]]; simpl.
  - rewrite Hc. now exists [].
  - destruct (p a); [now exists l'|]. now exists (a :: l).
Qed.

Lemma rstrip_keeps_head (s : pystr) :
  lstrip s = s -> lstrip (rstrip s) = rstrip s.
Proof.
  unfold lstrip, rstrip. destruct s as [|c r]; [reflexivity|].
  simpl. destruct (is_space c) eqn:E.
  - intros H. exfalso.
    assert (forall l : pystr, (List.length (dropwhile is_space l) <= List.length l)%nat) as L.
    { induction l as [|a l IH]; simpl; [lia|].
      destruct (is_space a); simpl; lia. }
    specialize (L r). rewrite H in L. simpl in L. lia.
  - intros _. destruct (dropwhile_snoc is_space (rev r) c E) as [l' E'].
    rewrite E'. rewrite rev_app_distr. simpl. now rewrite E.
Qed.

Lemma strip_idem (s : pystr) : strip (strip s) = strip s.
Proof.
  unfold strip.
  rewrite (rstrip_keeps_head (lstrip s)) by apply dropwhile_idem.
  unfold rstrip. rewrite rev_involutive. now rewrite dropwhile_idem.
Qed.

Lemma first_line_idem (s : pystr) : first_line (first_line s) = first_line s.
Proof.
  induction s as [|c r IH]; simpl; [reflexivity|].
  destruct (N.eqb c LF) eqn:E; [reflexivity|]. simpl. now rewrite E, IH.
Qed.

Lemma first_line_app (a b : pystr) :
  first_line a = a -> first_line (a ++ LF :: b) = a.
Proof.
  induction a as [|c r IH]; simpl; [reflexivity|].
  destruct (N.eqb c LF); [discriminate|].
  intros [= H]. now rewrite IH.
Qed.

End MoreStrings.

(** ** More about the analyze operation *)

Section MoreAnalyze.
Context {U : UnicodeData}.

Ltac run_analyze_all :=
  cbv [analyze_sentiment analyze_body Backend.analyze_handlers try_except
       bind requests_post send response_json lift log ret raise
       net sent logged shown status_code json_result fst snd].

Lemma analyze_sentiment_success (text : pystr) (w w' : world) (a : analysis) :
  analyze_sentiment text w = (inr a, w') ->
  exists reply,
    falsy (strip text) = false /\
    string_reply (net w (sent w) (generate_request text)) = Some reply /\
    a = mkAnalysis (normalize_as_specified (strip reply)) text (strip reply).
Proof.
  intros E. pose proof (analyze_sentiment_result text w) as R.
  rewrite E, result_of_spec in R. simpl in R.
  destruct (falsy (strip text)); [discriminate|].
  destruct (string_reply _) as [reply|]; [|discriminate].
  inversion R; subst. now exists reply.
Qed.

(** X1: a successful result carries the text exactly as it was sent, a
    "raw_response" that is already stripped, and a "sentiment" that the
    normalization gives again from that "raw_response" alone. *)
Theorem success_echoes_text :
  forall text w a w',
    analyze_sentiment text w = (inr a, w') ->
    Backend.text a = text
    /\ strip (raw_response a) = raw_response a
    /\ clean_sentiment (raw_response a) = inr (sentiment a).
Proof.
  intros text w a w' E.
  destruct (analyze_sentiment_success text w w' a E) as [reply [_ [_ ->]]].
  simpl. split; [reflexivity|]. split; [apply strip_idem|].
  apply clean_sentiment_as_specified.
Qed.

(** X2: the only errors are the 400 for a blank text and two errors 500:
    "Could not connect ..." exactly when the request, or the decoding of a
    200 answer, raised a [RequestException], and "An unexpected error
    occurred" otherwise.  An answer with another status gives the second:
    the detail of the exception raised at line 65 never reaches the
    caller. *)
Theorem analyze_sentiment_errors :
  forall text w e w',
    analyze_sentiment text w = (inl e, w') ->
    (e = HTTPException 400 (py "Text cannot be empty")
     \/ e = HTTPException 500 CONNECT_DETAIL
     \/ e = HTTPException 500 UNEXPECTED_DETAIL)
    /\ e <> HTTPException 500 FAILED_DETAIL
    /\ (forall r, net w (sent w) (generate_request text) = inr r ->
                  status_code r <> 200 ->
                  falsy (strip text) = false ->
                  e = HTTPException 500 UNEXPECTED_DETAIL)
    /\ (forall x, net w (sent w) (generate_request text) = inl x ->
                  falsy (strip text) = false ->
                  e = HTTPException 500
                        (if is_RequestException x then CONNECT_DETAIL
                         else UNEXPECTED_DETAIL)).
Proof.
  intros text w e w' E.
  pose proof (analyze_sentiment_result text w) as R.
  rewrite E, result_of_spec in R. simpl in R.
  assert ((falsy (strip text) = true /\
           e = HTTPException 400 (py "Text cannot be empty")) \/
          (falsy (strip text) = false /\
           e = HTTPException 500
                 (failure_detail (net w (sent w) (generate_request text)))))
    as C.
  { destruct (falsy (strip text)); [left; now inversion R|].
    destruct (string_reply _); [discriminate|]. right. now inversion R. }
  clear R.
  assert (forall ans, failure_detail ans = CONNECT_DETAIL
                      \/ failure_detail ans = UNEXPECTED_DETAIL) as D.
  { intros [x | [status [x | j]]]; simpl;
      try destruct (status =? 200); try destruct (is_RequestException x); auto. }
  split; [|split; [|split]].
  - destruct C as [[_ ->] | [_ ->]]; [now left|].
    destruct (D (net w (sent w) (generate_request text))) as [-> | ->]; auto.
  - destruct C as [[_ ->] | [_ ->]]; [discriminate|].
    destruct (D (net w (sent w) (generate_request text))) as [-> | ->];
      discriminate.
  - intros r A S F. destruct C as [[F' _] | [_ ->]]; [congruence|].
    rewrite A. destruct r as [status decoded]. simpl in *.
    destruct (Z.eqb_spec status 200); [contradiction | reflexivity].
  - intros x A F. destruct C as [[F' _] | [_ ->]]; [congruence|].
    now rewrite A.
Qed.

(** X3: every call for a text that is not blank leaves the log longer; a
    success adds exactly one record, with at most the first 50 characters
    of the text and the label returned; a failure adds only error records;
    a blank text adds nothing. *)
Theorem analyze_sentiment_logs :
  forall text w,
    (falsy (strip text) = true ->
     logged (snd (analyze_sentiment text w)) = logged w)
    /\
    (falsy (strip text) = false ->
     match fst (analyze_sentiment text w) with
     | inr a =>
         logged (snd (analyze_sentiment text w))
         = logged w ++ [LogAnalyzed (firstn 50 text) (sentiment a)]
         /\ (List.length (firstn 50 text) <= 50)%nat
     | inl _ =>
         exists records,
           logged (snd (analyze_sentiment text w)) = logged w ++ records
           /\ records <> []
           /\ forallb is_error_record records = true
     end).
Proof.
  intros text w. split; intros H.
  - now rewrite (analyze_sentiment_blank text w H).
  - destruct w as [nt st lg sh].
    pose proof (firstn_le_length 50 text) as L.
    run_analyze_all. rewrite H.
    set (text50 := firstn 50 text) in *. clearbody text50.
    destruct (nt st _) as [e | [status [e | j]]].
    + destruct (is_RequestException e); simpl;
        eexists; (split; [reflexivity | split; [discriminate | reflexivity]]).
    + destruct (negb (status =? 200)); simpl;
        [|destruct (is_RequestException e); simpl];
        eexists; (split; [try rewrite <- app_assoc; reflexivity
                         | split; [discriminate | reflexivity]]).
    + destruct (negb (status =? 200)); simpl;
        [eexists; (split; [rewrite <- app_assoc; reflexivity
                          | split; [discriminate | reflexivity]])|].
      destruct (getitem j (py "response")) as [e | reply]; simpl.
      * destruct (is_RequestException e); simpl;
          eexists; (split; [reflexivity | split; [discriminate | reflexivity]]).
      * destruct (str_method strip reply) as [e | sentiment_raw]; simpl.
        -- destruct (is_RequestException e); simpl;
             eexists; (split; [reflexivity | split; [discriminate | reflexivity]]).
        -- destruct (clean_sentiment sentiment_raw) as [e | label]; simpl.
           ++ destruct (is_RequestException e); simpl;
                eexists; (split; [reflexivity | split; [discriminate | reflexivity]]).
           ++ split; [reflexivity | exact L].
Qed.

Lemma prompt_of_inj (t1 t2 : pystr) : prompt_of t1 = prompt_of t2 -> t1 = t2.
Proof.
  unfold prompt_of. intros H.
  repeat (apply app_inv_head in H).
  rewrite !app_assoc in H.
  repeat (apply app_inv_tail in H).
  exact H.
Qed.

(** X4: the request carries the text: two texts that give the same
    request are the same text. *)
Theorem generate_request_inj :
  forall t1 t2, generate_request t1 = generate_request t2 -> t1 = t2.
Proof.
  intros t1 t2 H. apply prompt_of_inj.
  apply (f_equal (fun r => match body r with
                           | JsonBody (JObj (_ :: (_, JStr p) :: _)) => p
                           | _ => []
                           end)) in H.
  exact H.
Qed.

(** X5: where the tables lower-case the three labels to their lower-case
    spellings, the test for an exact label changes nothing: the label is
    always the one the search gives on the cleaned first line, "Positive"
    exactly when its lower-cased form contains "positive", "Negative"
    exactly when it contains "negative" and not "positive". *)
Theorem label_by_search :
  lowers_labels ->
  forall sentiment_raw,
    clean_sentiment sentiment_raw
    = inr (extract_sentiment (cleaned_first_line sentiment_raw))
    /\ (clean_sentiment sentiment_raw = inr (py "Positive") <->
        contains (py "positive") (lower (cleaned_first_line sentiment_raw)) = true)
    /\ (clean_sentiment sentiment_raw = inr (py "Negative") <->
        contains (py "positive") (lower (cleaned_first_line sentiment_raw)) = false
        /\ contains (py "negative") (lower (cleaned_first_line sentiment_raw)) = true).
Proof.
  intros [LP [LN LU]] sentiment_raw.
  assert (clean_sentiment sentiment_raw
          = inr (extract_sentiment (cleaned_first_line sentiment_raw))) as E.
  { rewrite clean_sentiment_eq.
    destruct (mem (cleaned_first_line sentiment_raw) valid_sentiments) eqn:M;
      [|reflexivity].
    apply mem_In in M. unfold valid_sentiments in M. simpl in M.
    unfold extract_sentiment.
    destruct M as [<- | [<- | [<- | []]]].
    - now rewrite LP.
    - now rewrite LN.
    - now rewrite LU. }
  split; [exact E|]. rewrite E. unfold extract_sentiment.
  destruct (contains (py "positive") (lower (cleaned_first_line sentiment_raw)));
    destruct (contains (py "negative") (lower (cleaned_first_line sentiment_raw)));
    split; split; try discriminate; try reflexivity;
    try (intros [? ?]; discriminate); try (split; reflexivity).
Qed.

(** X6: only the first line of [sentiment_raw] counts: two replies with
    the same first line get the same label. *)
Theorem label_of_first_line :
  forall raw1 raw2,
    first_line raw1 = first_line raw2 ->
    clean_sentiment raw1 = clean_sentiment raw2.
Proof.
  intros raw1 raw2 H.
  rewrite !clean_sentiment_eq. unfold cleaned_first_line. now rewrite H.
Qed.

End MoreAnalyze.

Lemma success_echoes_text_witness :
  @strip basic_latin (py "Positive") = py "Positive".
Proof.
  apply (proj1 (proj2 (@success_echoes_text basic_latin (py " Great! ")
           (ollama_says (JStr (py " Positive ")))
           (mkAnalysis (py "Positive") (py " Great! ") (py "Positive"))
           (snd (@analyze_sentiment basic_latin (py " Great! ")
                   (ollama_says (JStr (py " Positive ")))))
           eq_refl))).
Defined.

Lemma analyze_sentiment_errors_witness :
  HTTPException 500 UNEXPECTED_DETAIL <> HTTPException 500 FAILED_DETAIL.
Proof.
  apply (proj1 (proj2 (@analyze_sentiment_errors basic_latin (py "Great!")
           (answering (inr (mkResponse 503 (inr JNull))))
           (HTTPException 500 UNEXPECTED_DETAIL)
           (snd (@analyze_sentiment basic_latin (py "Great!")
                   (answering (inr (mkResponse 503 (inr JNull))))))
           eq_refl))).
Defined.

Lemma analyze_sentiment_logs_witness :
  logged (snd (@analyze_sentiment basic_latin (py "   ")
                 (ollama_says (JStr (py "Neutral"))))) = []
  /\ logged (snd (@analyze_sentiment basic_latin (py "Great!")
                    (ollama_says (JStr (py "Neutral")))))
     = [] ++ [LogAnalyzed (py "Great!") (py "Neutral")]
  /\ (6 <= 50)%nat.
Proof.
  split.
  - apply (proj1 (@analyze_sentiment_logs basic_latin (py "   ")
                    (ollama_says (JStr (py "Neutral"))))).
    reflexivity.
  - apply (proj2 (@analyze_sentiment_logs basic_latin (py "Great!")
                    (ollama_says (JStr (py "Neutral")))) eq_refl).
Defined.

Lemma generate_request_inj_witness : py "Great!" = py "Great!".
Proof.
  apply (@generate_request_inj (py "Great!") (py "Great!")). reflexivity.
Defined.

Lemma label_by_search_witness :
  @clean_sentiment basic_latin (py "Positive")
  = inr (@extract_sentiment basic_latin
           (@cleaned_first_line basic_latin (py "Positive"))).
Proof.
  apply (proj1 (@label_by_search basic_latin
                  (conj eq_refl (conj eq_refl eq_refl)) (py "Positive"))).
Defined.

Lemma label_of_first_line_witness :
  @clean_sentiment basic_latin (py "negative" ++ LF :: py "or positive")
  = @clean_sentiment basic_latin (py "negative" ++ LF :: py "certainly").
Proof.
  apply (@label_of_first_line basic_latin). reflexivity.
Defined.

(** ** More about the lists of models *)

Section MoreModels.
Context {U : UnicodeData}.

Lemma any_mistral_skip (good rest : list json) :
  Forall other_model good ->
  Backend.any_mistral (good ++ rest) = Backend.any_mistral rest.
Proof.
  induction 1 as [|m good [s [Hn Hs]] _ IH]; [reflexivity|].
  simpl. unfold model_name in Hn.
  destruct (getitem m (py "name")) as [e | [ | | | s' | | ]]; try discriminate.
  injection Hn as ->. simpl. rewrite Hs. exact IH.
Qed.

(** X7: the scan of the health check stops at the first model whose name
    starts with "mistral": entries after it are never read, whatever they
    are; an entry before it that is not an object with a string "name"
    makes the scan raise; and a list of readable entries without such a
    name gives False. *)
Theorem any_mistral_short_circuit :
  forall good,
    Forall other_model good ->
    (forall hit rest,
        mistral_model hit ->
        Backend.any_mistral (good ++ hit :: rest) = inr true)
    /\ (forall bad rest,
           model_name bad = None ->
           exists e, Backend.any_mistral (good ++ bad :: rest) = inl e)
    /\ Backend.any_mistral good = inr false.
Proof.
  intros good G. split; [|split].
  - intros hit rest [s [Hn Hs]]. rewrite any_mistral_skip by exact G.
    simpl. unfold model_name in Hn.
    destruct (getitem hit (py "name")) as [e | [ | | | s' | | ]];
      try discriminate.
    injection Hn as ->. simpl. now rewrite Hs.
  - intros bad rest Hn. rewrite any_mistral_skip by exact G.
    simpl. unfold model_name in Hn.
    destruct (getitem bad (py "name")) as [e | [ | | | s' | | ]];
      try discriminate; simpl; eexists; reflexivity.
  - rewrite <- (app_nil_r good). now rewrite any_mistral_skip.
Qed.

Lemma startswith_app (s p : pystr) :
  startswith s p = true -> exists rest, s = p ++ rest.
Proof.
  revert s. induction p as [|a p IH]; intros s H; [now exists s|].
  destruct s as [|b s]; [discriminate|]. simpl in H.
  apply andb_true_iff in H. destruct H as [E H].
  apply N.eqb_eq in E. subst b.
  destruct (IH s H) as [rest ->]. now exists rest.
Qed.

Lemma startswith_self_app (p rest : pystr) : startswith (p ++ rest) p = true.
Proof.
  induction p as [|a p IH]; [now destruct rest|].
  simpl. now rewrite N.eqb_refl, IH.
Qed.

Lemma do_lower_keeps (p : pystr) :
  Forall (fun c => c <> CAPITAL_SIGMA /\ to_lower_full c = [c]) p ->
  forall before rest,
    do_lower before (p ++ rest) = p ++ do_lower (rev p ++ before) rest.
Proof.
  induction 1 as [|c p [Hc Hl] _ IH]; intros before rest; [reflexivity|].
  simpl. unfold lower_ucs4.
  apply N.eqb_neq in Hc. rewrite Hc, Hl. simpl.
  rewrite IH. now rewrite <- app_assoc.
Qed.

Lemma contains_prefix (p rest : pystr) : contains p (p ++ rest) = true.
Proof.
  assert (forall hay, contains p hay
                      = startswith hay p
                        || match hay with
                           | [] => false
                           | _ :: r => contains p r
                           end) as E by (now intros [|? ?]).
  now rewrite E, startswith_self_app.
Qed.

Lemma lower_mistral (rest : pystr) :
  lower_keeps (py "mistral") ->
  contains (py "mistral") (lower (py "mistral" ++ rest)) = true.
Proof.
  intros K. unfold lower.
  rewrite do_lower_keeps; [apply contains_prefix|].
  unfold lower_keeps in K. rewrite Forall_forall in *.
  intros c Hin. split; [|now apply K].
  intros ->. cbv in Hin. intuition discriminate.
Qed.

(** X8: where the tables leave the letters of "mistral" as they are when
    lower-casing, the launcher is at least as permissive as the health
    check: on a list in which the health check finds the model, the scan
    of [check_requirements] finds it too. *)
Theorem launcher_scan_finds_what_health_finds :
  lower_keeps (py "mistral") ->
  forall items,
    Backend.any_mistral items = inr true ->
    Launcher.any_mistral items = inr true.
Proof.
  intros K items. induction items as [|m items IH]; [discriminate|].
  simpl. destruct (getitem m (py "name")) as [e | name]; [discriminate|].
  destruct name as [ | | | s | | ]; try discriminate. simpl.
  destruct (startswith s (py "mistral")) eqn:S.
  - intros _. destruct (startswith_app s (py "mistral") S) as [rest ->].
    now rewrite lower_mistral.
  - intros H. destruct (contains (py "mistral") (lower s)); [reflexivity|].
    now apply IH.
Qed.

End MoreModels.

Lemma any_mistral_short_circuit_witness :
  Backend.any_mistral
    ([model_named (py "llama3:8b")]
       ++ model_named (py "mistral:latest") :: [JNull]) = inr true.
Proof.
  assert (Forall other_model [model_named (py "llama3:8b")]) as G.
  { constructor; [|constructor]. exists (py "llama3:8b"). now split. }
  apply (proj1 (any_mistral_short_circuit _ G)).
  exists (py "mistral:latest"). now split.
Defined.

Lemma launcher_scan_finds_what_health_finds_witness :
  @Launcher.any_mistral basic_latin
    [model_named (py "llama3:8b"); model_named (py "mistral:latest")]
  = inr true.
Proof.
  apply (@launcher_scan_finds_what_health_finds basic_latin).
  - repeat constructor.
  - reflexivity.
Defined.

(** ** More about the page *)

Section MorePage.
Context {U : UnicodeData}.

Ltac run_page :=
  cbv [analyze_button show_result show_failure Frontend.analyze_handlers
       try_except bind requests_post send response_json lift show ret raise
       dict_get str_method net sent logged shown status_code json_result
       fst snd].

Ltac page_handlers e :=
  destruct (is_Timeout e) eqn:?; [|destruct (is_ConnectionError e) eqn:?].

Ltac page_cases nt st text_input :=
  fold (analyze_request text_input);
  destruct (nt st (analyze_request text_input))
    as [e | [status [e | j]]] eqn:A;
  [ page_handlers e
  | destruct (status =? 200) eqn:S; page_handlers e
  | destruct (status =? 200) eqn:S;
    [ destruct j as [ | b | n | s | items | fields]; simpl;
      try (destruct (lookup (py "sentiment") fields)
             as [[ | b | n | s | items | fields']|] eqn:L; simpl)
    | destruct j as [ | b | n | s | items | fields]; simpl;
      try (destruct (lookup (py "detail") fields) as [d|] eqn:L; simpl) ] ].

(** X9: a click on the analyze button never raises; it sends one
    request when the text is not blank and none when it is, leaves the log
    as it was, and always shows something: for a blank text the request
    to enter some text, and nothing else. *)
Theorem analyze_button_returns :
  forall text_input w, exists events,
    analyze_button text_input w
    = (inr tt,
       mkWorld (net w)
         (sent w ++ (if falsy (strip text_input) then []
                     else [analyze_request text_input]))
         (logged w) (shown w ++ events))
    /\ events <> []
    /\ (falsy (strip text_input) = true -> events = [UiError PleaseEnterText]).
Proof.
  intros text_input w.
  destruct w as [nt st lg sh]. run_page.
  destruct (falsy (strip text_input)) eqn:B.
  - exists [UiError PleaseEnterText]. rewrite app_nil_r.
    split; [reflexivity | split; [discriminate | reflexivity]].
  - page_cases nt st text_input.
    all: eexists; split;
      [rewrite <- ?app_assoc; reflexivity | split; [discriminate | discriminate]].
Qed.

(** X10: when the request raises, or is answered with a status other
    than 200, the page shows exactly one thing, an error: the time-out
    message for a time-out (a connect time-out included, although it is a
    connection error too), the connection message for any other connection
    error. *)
Theorem failure_shows_one_error :
  forall text_input w,
    falsy (strip text_input) = false ->
    (forall r, net w (sent w) (analyze_request text_input) = inr r ->
               status_code r <> 200) ->
    (exists what,
        shown (snd (analyze_button text_input w)) = shown w ++ [UiError what])
    /\ (forall e,
           net w (sent w) (analyze_request text_input) = inl e ->
           shown (snd (analyze_button text_input w))
           = shown w ++ [UiError (if is_Timeout e then RequestTimedOut
                                  else if is_ConnectionError e then CannotConnect
                                  else UnexpectedError e)]).
Proof.
  intros text_input w B H.
  destruct w as [nt st lg sh]. run_page. rewrite B. simpl in H.
  page_cases nt st text_input.
  all: try (exfalso; apply (H _ eq_refl); simpl; now apply Z.eqb_eq).
  all: split; [eexists; reflexivity|]; intros x [= <-];
    rewrite ?Heqb, ?Heqb0; reflexivity.
Qed.

(** X11: a label is shown only for an answer with status 200 whose body
    decodes to an object with a string "sentiment", or with none; the
    label is then that string, or "Unknown", and the class of its block
    is the one its lower-cased form gives. *)
Theorem label_only_on_success :
  forall text_input w css label,
    ~ In (UiSentiment css label) (shown w) ->
    In (UiSentiment css label) (shown (snd (analyze_button text_input w))) ->
    falsy (strip text_input) = false
    /\ exists fields,
         net w (sent w) (analyze_request text_input)
         = inr (mkResponse 200 (inr (JObj fields)))
         /\ label_of fields label
         /\ css = css_of (lower label).
Proof.
  intros text_input w css label Hold.
  destruct w as [nt st lg sh]. run_page. simpl in Hold.
  destruct (falsy (strip text_input)) eqn:B.
  - intros H. apply in_app_or in H. destruct H as [H | [H | []]];
      [contradiction | discriminate].
  - page_cases nt st text_input.
    all: intros H; rewrite <- ?app_assoc in H; apply in_app_or in H;
      destruct H as [H | H]; [contradiction|]; simpl in H.
    all: try (repeat (destruct H as [H | H]; try discriminate); now destruct H).
    all: apply Z.eqb_eq in S; subst status.
    all: destruct H as [H | [H | [H | []]]]; try discriminate;
      injection H as <- <-; split; [reflexivity|]; exists fields;
      split; [reflexivity | split; [|reflexivity]].
    + now left.
    + now right.
Qed.

(** X12: the message of success comes before the label is looked at: for
    an answer 200 whose "sentiment" is not a string, the page shows the
    success and then an unexpected error, and no label. *)
Theorem success_before_label :
  forall text_input w fields v,
    falsy (strip text_input) = false ->
    net w (sent w) (analyze_request text_input)
    = inr (mkResponse 200 (inr (JObj fields))) ->
    lookup (py "sentiment") fields = Some v ->
    (forall s, v <> JStr s) ->
    shown (snd (analyze_button text_input w))
    = shown w ++ [UiSuccess; UiError (UnexpectedError AttributeError)].
Proof.
  intros text_input w fields v B A L V.
  destruct w as [nt st lg sh]. run_page. rewrite B. simpl in A.
  fold (analyze_request text_input). rewrite A. simpl. rewrite L.
  destruct v; simpl; try (now rewrite <- app_assoc).
  now contradiction (V s).
Qed.

(** X13: for an answer with another status whose body decodes to an
    object, the error shown is the "detail" of that object, or "Unknown
    error" when it has none. *)
Theorem failure_shows_detail :
  forall text_input w status fields,
    falsy (strip text_input) = false ->
    net w (sent w) (analyze_request text_input)
    = inr (mkResponse status (inr (JObj fields))) ->
    status <> 200 ->
    shown (snd (analyze_button text_input w))
    = shown w ++ [UiError (ErrorDetail
                    (match lookup (py "detail") fields with
                     | Some d => d
                     | None => JStr (py "Unknown error")
                     end))].
Proof.
  intros text_input w status fields B A S.
  destruct w as [nt st lg sh]. run_page. rewrite B. simpl in A.
  fold (analyze_request text_input). rewrite A.
  apply Z.eqb_neq in S. rewrite S.
  now destruct (lookup (py "detail") fields).
Qed.

(** X14: where the tables lower-case the three labels to their
    lower-case spellings, every label the API service returns gets its own
    class: the positive class exactly for "Positive", the negative class
    exactly for "Negative", the neutral class exactly for "Neutral". *)
Theorem api_labels_styled :
  lowers_labels ->
  forall text w a w',
    analyze_sentiment text w = (inr a, w') ->
    (css_of (lower (sentiment a)) = sentiment_positive <->
     sentiment a = py "Positive")
    /\ (css_of (lower (sentiment a)) = sentiment_negative <->
        sentiment a = py "Negative")
    /\ (css_of (lower (sentiment a)) = sentiment_neutral <->
        sentiment a = py "Neutral").
Proof.
  intros [LP [LN LU]] text w a w' E.
  destruct (analyze_sentiment_success text w w' a E) as [reply [_ [_ ->]]].
  simpl sentiment.
  destruct (normalize_as_specified_label (strip reply)) as [-> | [-> | ->]];
    rewrite ?LP, ?LN, ?LU;
    (split; [|split]); split; intros H;
    try reflexivity; try discriminate H.
Qed.

End MorePage.

Lemma analyze_button_returns_witness :
  exists events,
    @analyze_button basic_latin (py "  ") (api_says [])
    = (inr tt, mkWorld (net (api_says [])) ([] ++ []) [] ([] ++ events))
    /\ events <> []
    /\ (true = true -> events = [UiError PleaseEnterText]).
Proof.
  apply (@analyze_button_returns basic_latin (py "  ") (api_says [])).
Defined.

Lemma failure_shows_one_error_witness :
  shown (snd (@analyze_button basic_latin (py "Great!")
                (answering (inl (RequestException ReqConnectTimeout)))))
  = [] ++ [UiError RequestTimedOut].
Proof.
  refine (proj2 (@failure_shows_one_error basic_latin (py "Great!")
                   (answering (inl (RequestException ReqConnectTimeout)))
                   eq_refl _)
            (RequestException ReqConnectTimeout) eq_refl).
  intros r H. discriminate H.
Defined.

Lemma label_only_on_success_witness :
  falsy (@strip basic_latin (py "Great!")) = false
  /\ exists fields,
       net (api_says []) (sent (api_says [])) (analyze_request (py "Great!"))
       = inr (mkResponse 200 (inr (JObj fields)))
       /\ label_of fields (py "Unknown")
       /\ sentiment_neutral = css_of (@lower basic_latin (py "Unknown")).
Proof.
  apply (@label_only_on_success basic_latin (py "Great!") (api_says [])
           sentiment_neutral (py "Unknown")).
  - intros [].
  - simpl. right. left. reflexivity.
Defined.

Lemma success_before_label_witness :
  shown (snd (@analyze_button basic_latin (py "Great!")
                (api_says [(py "sentiment", JNull)])))
  = [] ++ [UiSuccess; UiError (UnexpectedError AttributeError)].
Proof.
  apply (@success_before_label basic_latin (py "Great!")
           (api_says [(py "sentiment", JNull)])
           [(py "sentiment", JNull)] JNull eq_refl eq_refl eq_refl).
  intros s. discriminate.
Defined.

Lemma failure_shows_detail_witness :
  shown (snd (@analyze_button basic_latin (py "Great!")
                (answering (inr (mkResponse 500
                   (inr (JObj [(py "detail", JStr UNEXPECTED_DETAIL)])))))))
  = [] ++ [UiError (ErrorDetail (JStr UNEXPECTED_DETAIL))].
Proof.
  apply (@failure_shows_detail basic_latin (py "Great!")
           (answering (inr (mkResponse 500
              (inr (JObj [(py "detail", JStr UNEXPECTED_DETAIL)])))))
           500 [(py "detail", JStr UNEXPECTED_DETAIL)] eq_refl eq_refl).
  discriminate.
Defined.

Lemma api_labels_styled_witness :
  css_of (@lower basic_latin (py "Negative")) = sentiment_negative <->
  py "Negative" = py "Negative".
Proof.
  apply (proj1 (proj2 (@api_labels_styled basic_latin
           (conj eq_refl (conj eq_refl eq_refl))
           (py "Awful.") (ollama_says (JStr (py "negative")))
           (mkAnalysis (py "Negative") (py "Awful.") (py "negative"))
           (snd (@analyze_sentiment basic_latin (py "Awful.")
                   (ollama_says (JStr (py "negative")))))
           eq_refl))).
Defined.

(** ** The sidebar *)

Import Sidebar.

Lemma check_system_health_served (describe : exn -> pystr) (h : health)
    (p : panel) :
  api p (asked p) health_request
  = inr (mkResponse 200 (inr (JObj (health_fields describe h)))) ->
  check_system_health p
  = (inr tt,
     mkPanel (api p) (asked p ++ [health_request])
       (notes p ++ health_notes (eqb (ollama_status h) (py "connected"))
                                (mistral_available h))).
Proof.
  intros A. destruct p as [ap ak nts]. simpl in A.
  cbv [check_system_health try_except bind Sidebar.requests_get note lift ret
       api asked notes status_code json_result].
  fold health_request. rewrite A. simpl.
  destruct (eqb (ollama_status h) (py "connected")); simpl;
    [destruct (mistral_available h); simpl|];
    now rewrite <- !app_assoc.
Qed.

(** X15: the sidebar reads what the health endpoint writes.  When the
    API service serves the dict of [health_check] with status 200, the
    sidebar shows that the API is running, and then: that Ollama is
    connected exactly when the ping of the health check returned status
    200 with a list of models that could be read, with the model shown as
    available exactly when the scan found it; in every other case, that
    Ollama is not connected. *)
Theorem sidebar_reflects_ping :
  forall (describe : exn -> pystr) (w w' : world) (h : health) (p : panel),
    health_check w = (inr h, w') ->
    api p (asked p) health_request
    = inr (mkResponse 200 (inr (JObj (health_fields describe h)))) ->
    notes (snd (check_system_health p))
    = notes p ++
      match net w (sent w) tags_request with
      | inr r =>
          if Z.eqb (status_code r) 200 then
            match scan_models (json_result r) with
            | inr found => health_notes true found
            | inl _ => health_notes false false
            end
          else health_notes false false
      | inl _ => health_notes false false
      end.
Proof.
  intros describe w w' h p H A.
  rewrite (check_system_health_served describe h p A). simpl notes.
  rewrite health_check_run in H. injection H as <- _.
  destruct (net w (sent w) tags_request) as [e | r]; [reflexivity|].
  destruct (status_code r =? 200); [|reflexivity].
  now destruct (scan_models (json_result r)).
Qed.

Lemma sidebar_reflects_ping_witness :
  notes (snd (check_system_health
                (mkPanel (fun _ _ => inr (mkResponse 200 (inr (JObj
                            (health_fields (fun _ => []) 
                               (mkHealth (py "healthy") (py "connected") true None))))))
                         [] [])))
  = [] ++ health_notes true true.
Proof.
  apply (sidebar_reflects_ping (fun _ => [])
           (answering (inr (mkResponse 200
              (inr (JObj [(py "models",
                           JArr [model_named (py "mistral:latest")])])))))
           (snd (health_check (answering (inr (mkResponse 200
              (inr (JObj [(py "models",
                           JArr [model_named (py "mistral:latest")])])))))))
           (mkHealth (py "healthy") (py "connected") true None)
           (mkPanel (fun _ _ => inr (mkResponse 200 (inr (JObj
                       (health_fields (fun _ => [])
                          (mkHealth (py "healthy") (py "connected") true None))))))
                    [] [])
           eq_refl eq_refl).
Defined.

(** ** More about the launcher *)

Module LauncherMoreProofs.
Import Launcher LauncherSpec LauncherMore LauncherProofs.

Lemma emits_ret {A : Type} (P : call -> bool) (a : A) : emits P (ret a).
Proof. intros w. exists []. simpl. now rewrite app_nil_r. Qed.

Lemma emits_raise {A : Type} (P : call -> bool) (e : exn) :
  emits P (@raise world A e).
Proof. intros w. exists []. simpl. now rewrite app_nil_r. Qed.

Lemma emits_ask {A : Type} (P : call -> bool) (c : call)
    (f : os -> list call -> exn + A) :
  P c = true -> emits P (ask c f).
Proof. intros H w. exists [c]. simpl. now rewrite H. Qed.

Lemma emits_get_self (P : call -> bool) : emits P get_self.
Proof. intros w. exists []. simpl. now rewrite app_nil_r. Qed.

Lemma emits_bind {A B : Type} (P : call -> bool) (c : M world A)
    (k : A -> M world B) :
  emits P c -> (forall a, emits P (k a)) -> emits P (bind c k).
Proof.
  intros Hc Hk w. unfold bind.
  destruct (Hc w) as [tr1 [S1 [C1 F1]]].
  destruct (c w) as [[e | a] w1]; simpl in *.
  - now exists tr1.
  - destruct (Hk a w1) as [tr2 [S2 [C2 F2]]].
    exists (tr1 ++ tr2). rewrite S2, C2, S1, C1, forallb_app, F1, F2.
    now rewrite app_assoc.
Qed.

Lemma emits_try_except {A : Type} (P : call -> bool) (c : M world A)
    (h : exn -> M world A) :
  emits P c -> (forall e, emits P (h e)) -> emits P (try_except c h).
Proof.
  intros Hc Hh w. unfold try_except.
  destruct (Hc w) as [tr1 [S1 [C1 F1]]].
  destruct (c w) as [[e | a] w1]; simpl in *.
  - destruct (Hh e w1) as [tr2 [S2 [C2 F2]]].
    exists (tr1 ++ tr2). rewrite S2, C2, S1, C1, forallb_app, F1, F2.
    now rewrite app_assoc.
  - now exists tr1.
Qed.

Lemma emits_if {A : Type} (P : call -> bool) (b : bool) (c1 c2 : M world A) :
  emits P c1 -> emits P c2 -> emits P (if b then c1 else c2).
Proof. now destruct b. Qed.

Lemma emits_weaken {A : Type} (P Q : call -> bool) (c : M world A) :
  (forall k, P k = true -> Q k = true) -> emits P c -> emits Q c.
Proof.
  intros I H w. destruct (H w) as [tr [S [C F]]].
  exists tr. split; [exact S|]. split; [exact C|].
  rewrite forallb_forall in *. auto.
Qed.

Section WithUnicode.
Context {U : UnicodeData}.

Lemma stop_process_emits (c : child) : emits (stops c) (stop_process c).
Proof.
  assert (emits (stops c) (graceful c)) as G.
  { intros w. unfold graceful.
    destruct (windows (sys w));
      [exists [SendCtrlBreak c] | exists [Terminate c]];
      simpl; now destruct c. }
  unfold stop_process, try_except_if, kill, wait.
  repeat first
    [ assumption
    | apply emits_bind; [|intros ?]
    | apply emits_try_except; [|intros ?]
    | apply emits_if
    | apply emits_ret
    | apply emits_raise
    | apply emits_ask; now destruct c ].
Qed.

Lemma stops_not_frontend_spawn (c : child) (k : call) :
  stops c k = true -> not_frontend_spawn k = true.
Proof. now destruct k. Qed.

Lemma stop_services_emits : emits not_frontend_spawn stop_services.
Proof.
  unfold stop_services.
  apply emits_bind; [apply emits_get_self | intros a].
  apply emits_bind; [|intros _];
    (apply emits_if; [|apply emits_ret]);
    eapply emits_weaken; [apply stops_not_frontend_spawn | apply stop_process_emits
                         |apply stops_not_frontend_spawn | apply stop_process_emits].
Qed.

Lemma failed_probes_quiet (k : nat) :
  forallb not_frontend_spawn (failed_probes k) = true.
Proof. induction k; [reflexivity | exact IHk]. Qed.

Lemma settles_quiet (c : child) (l : list call) :
  forallb (settles c) l = true -> forallb not_frontend_spawn l = true.
Proof.
  rewrite !forallb_forall. intros H k Hk. specialize (H k Hk). now destruct k.
Qed.

Lemma asks_only_quiet (l : list call) :
  forallb asks_only l = true -> forallb not_frontend_spawn l = true.
Proof.
  rewrite !forallb_forall. intros H k Hk. specialize (H k Hk). now destruct k.
Qed.

Lemma watches_quiet (l : list call) :
  forallb watches l = true -> forallb not_frontend_spawn l = true.
Proof.
  rewrite !forallb_forall. intros H k Hk. specialize (H k Hk). now destruct k.
Qed.

Lemma stop_services_quiet (o : os) (pre : list call) (a : AppStarter)
    (w' : world) :
  stop_services (mkWorld o pre a) = (inr tt, w') ->
  exists t, calls w' = pre ++ t /\ forallb not_frontend_spawn t = true.
Proof.
  intros E.
  destruct (stop_services_emits (mkWorld o pre a)) as [t [_ [C F]]].
  rewrite E in C. simpl in C. now exists t.
Qed.

Lemma handled_quiet (o : os) (pre : list call) (a : AppStarter) :
  exists t,
    calls (handled (mkWorld o pre a)) = pre ++ t /\
    forallb not_frontend_spawn t = true.
Proof.
  unfold handled.
  destruct (stop_services_emits (mkWorld o pre (stopping a))) as [t [_ [C F]]].
  simpl in *. now exists t.
Qed.

(** The calls of a run, however it ends: the frontend is not spawned and
    the run did not succeed, or the frontend is spawned once, right after
    the probe that was answered. *)
Lemma ending_calls (o : os) (r : halt + option bool) (w' : world) :
  ending o r w' ->
  (forallb not_frontend_spawn (calls w') = true /\
   (r = inr (Some false) \/ (exists e, r = inl (Raise e)) \/ r = inl (Exit 0)))
  \/
  (exists checks k rest,
      forallb asks_only checks = true /\
      ready_after o (checks ++ start_calls o backend 3) k /\
      calls w' = ready_calls o checks k ++ Popen frontend (windows o) :: rest /\
      forallb not_frontend_spawn rest = true).
Proof.
  intros H. destruct H.
  - left. split; [now apply asks_only_quiet|].
    match goal with
    | D : _ \/ _ |- _ => destruct D as [D | D]; [now left | right; now left]
    end.
  - left. split; [|now right; right].
    destruct (handled_quiet o before nothing_started) as [t [-> F]].
    rewrite forallb_app, F, asks_only_quiet by assumption. reflexivity.
  - left. split; [|now left]. cbn [calls].
    rewrite forallb_app, asks_only_quiet by assumption.
    cbn [forallb]. rewrite (settles_quiet backend) by assumption. reflexivity.
  - left. split; [|now right; right].
    destruct (handled_quiet o (before ++ [Popen backend (windows o); Sleep 3])
                backend_started) as [t [-> F]].
    rewrite !forallb_app, F, asks_only_quiet by assumption. reflexivity.
  - left. split; [|now right; right].
    destruct (handled_quiet o (before ++ start_calls o backend 3
                                 ++ failed_probes (S k))
                backend_started) as [t [-> F]].
    rewrite !forallb_app, F, asks_only_quiet, failed_probes_quiet
      by assumption.
    reflexivity.
  - left. split; [|now left].
    match goal with
    | E : stop_services _ = _ |- _ =>
        destruct (stop_services_quiet _ _ _ _ E) as [t [-> F]]
    end.
    rewrite !forallb_app, F, asks_only_quiet, failed_probes_quiet
      by assumption.
    reflexivity.
  - right.
    match goal with
    | E : stop_services _ = _ |- _ =>
        destruct (stop_services_quiet _ _ _ _ E) as [t [-> F]]
    end.
    exists before, k, (rest ++ t).
    split; [assumption|]. split; [assumption|].
    split; [now rewrite <- app_assoc|].
    rewrite forallb_app, F, (settles_quiet frontend) by assumption.
    reflexivity.
  - right.
    destruct (handled_quiet o (ready_calls o before k
                                 ++ [Popen frontend (windows o); Sleep 4])
                all_started) as [t [-> F]].
    exists before, k, (Sleep 4 :: t).
    split; [assumption|]. split; [assumption|].
    split; [now rewrite <- app_assoc|exact F].
  - right. exists before, k, (Sleep 4 :: Poll frontend :: watched).
    split; [assumption|]. split; [assumption|].
    split.
    + cbn [calls]. unfold launch_calls, ready_calls, start_calls.
      rewrite <- !app_assoc. reflexivity.
    + cbn [forallb not_frontend_spawn spawns negb andb].
      now apply watches_quiet.
  - right.
    destruct (handled_quiet o (launch_calls o before k watched) all_started)
      as [t [-> F]].
    exists before, k, (Sleep 4 :: Poll frontend :: watched ++ t).
    split; [assumption|]. split; [assumption|].
    split.
    + unfold launch_calls, ready_calls, start_calls.
      rewrite <- ?app_assoc. cbn [app]. rewrite <- ?app_assoc. reflexivity.
    + cbn [forallb not_frontend_spawn spawns negb andb].
      rewrite forallb_app, F, watches_quiet by assumption. reflexivity.
  - right.
    match goal with
    | E : stop_services _ = _ |- _ =>
        destruct (stop_services_quiet _ _ _ _ E) as [t [-> F]]
    end.
    exists before, k, (Sleep 4 :: Poll frontend :: watched ++ t).
    split; [assumption|]. split; [assumption|].
    split.
    + unfold launch_calls, ready_calls, start_calls.
      rewrite <- ?app_assoc. cbn [app]. rewrite <- ?app_assoc. reflexivity.
    + cbn [forallb not_frontend_spawn spawns negb andb].
      rewrite forallb_app, F, watches_quiet by assumption. reflexivity.
Qed.

Ltac run_requirements :=
  cbv [check_requirements continue_anyway exists_ import_packages input
       Launcher.requests_get ask and_then plain done throw lift
       except_Exception sys calls self].

(** X16: when a file of the project is missing or the packages cannot be
    imported, the check of the requirements fails at once: it has only
    looked at the files and the packages, Ollama is not contacted and the
    user is not asked. *)
Theorem requirements_fail_locally :
  forall w,
    path_exists (sys w) (calls w) (py "backend/main.py") = false
    \/ path_exists (sys w) (calls w ++ [PathExists (py "backend/main.py")])
         (py "frontend/app.py") = false
    \/ importable (sys w)
         (calls w ++ [PathExists (py "backend/main.py");
                      PathExists (py "frontend/app.py")]) = false ->
    exists tr,
      check_requirements w
      = (inr false, mkWorld (sys w) (calls w ++ tr) (self w))
      /\ forallb is_local tr = true.
Proof.
  intros [o h a] H. simpl in H. run_requirements.
  destruct (path_exists o h (py "backend/main.py")) eqn:PB.
  - destruct (path_exists o (h ++ [PathExists (py "backend/main.py")])
                (py "frontend/app.py")) eqn:PF.
    + simpl. rewrite <- (app_assoc h). cbn [app].
      destruct H as [H | [H | H]]; try discriminate. rewrite H. simpl.
      exists local_checks. split; [|reflexivity].
      unfold local_checks. now rewrite <- !app_assoc.
    + simpl.
      exists [PathExists (py "backend/main.py"); PathExists (py "frontend/app.py")].
      split; [|reflexivity]. now rewrite <- !app_assoc.
  - simpl. now exists [PathExists (py "backend/main.py")].
Qed.

Ltac norm_calls := rewrite <- ?app_assoc; cbn [app].

(** X17: once the files and the packages are there, Ollama decides
    without the user being asked when it answers with another status than
    200 (the check fails) or lists a model with "mistral" in its
    lower-cased name (the check passes); in every other case the user is
    asked, and the check passes exactly when the answer lower-cases to
    "y". *)
Theorem requirements_decided :
  forall w,
    path_exists (sys w) (calls w) (py "backend/main.py") = true ->
    path_exists (sys w) (calls w ++ [PathExists (py "backend/main.py")])
      (py "frontend/app.py") = true ->
    importable (sys w)
      (calls w ++ [PathExists (py "backend/main.py");
                   PathExists (py "frontend/app.py")]) = true ->
    (forall r,
        get_result (sys w) (calls w ++ local_checks) OLLAMA_TAGS 3 = inr r ->
        status_code r <> 200 ->
        check_requirements w
        = (inr false,
           mkWorld (sys w)
             (calls w ++ local_checks ++ [HttpGet OLLAMA_TAGS 3]) (self w)))
    /\
    (forall r,
        get_result (sys w) (calls w ++ local_checks) OLLAMA_TAGS 3 = inr r ->
        status_code r = 200 ->
        scan_tags (json_result r) = inr true ->
        check_requirements w
        = (inr true,
           mkWorld (sys w)
             (calls w ++ local_checks ++ [HttpGet OLLAMA_TAGS 3]) (self w)))
    /\
    (forall answer,
        (forall r,
            get_result (sys w) (calls w ++ local_checks) OLLAMA_TAGS 3 = inr r ->
            status_code r = 200 /\ scan_tags (json_result r) <> inr true) ->
        input_result (sys w)
          (calls w ++ local_checks ++ [HttpGet OLLAMA_TAGS 3]) = inr answer ->
        check_requirements w
        = (inr (eqb (lower answer) (py "y")),
           mkWorld (sys w)
             (calls w ++ local_checks ++ [HttpGet OLLAMA_TAGS 3; Input])
             (self w))).
Proof.
  intros [o h a] PB PF IM. simpl in PB, PF, IM.
  unfold local_checks. simpl sys; simpl calls; simpl self. cbn [app].
  split; [|split].
  - intros r G S. run_requirements. rewrite PB. simpl. rewrite PF. simpl.
    norm_calls. rewrite IM. cbn [negb]. cbv iota. norm_calls.
    rewrite G. apply Z.eqb_neq in S. rewrite S. now norm_calls.
  - intros r G S T. run_requirements. rewrite PB. simpl. rewrite PF. simpl.
    norm_calls. rewrite IM. cbn [negb]. cbv iota. norm_calls.
    rewrite G. apply Z.eqb_eq in S. rewrite S.
    unfold scan_tags in T.
    destruct (json_result r) as [e | models]; [discriminate|].
    destruct (dict_get models (py "models") (JArr [])) as [e | listed];
      [discriminate|].
    destruct (iterate listed) as [e | items]; [discriminate|].
    rewrite T. now norm_calls.
  - intros answer G I. run_requirements. rewrite PB. simpl. rewrite PF. simpl.
    norm_calls. rewrite IM. cbn [negb]. cbv iota. norm_calls.
    destruct (get_result o (h ++ _) OLLAMA_TAGS 3) as [e | r] eqn:GR.
    + norm_calls. rewrite I. now norm_calls.
    + destruct (G r eq_refl) as [S T]. apply Z.eqb_eq in S. rewrite S.
      unfold scan_tags in T.
      destruct (json_result r) as [e | models];
        [norm_calls; rewrite I; now norm_calls|].
      destruct (dict_get models (py "models") (JArr [])) as [e | listed];
        [norm_calls; rewrite I; now norm_calls|].
      destruct (iterate listed) as [e | items];
        [norm_calls; rewrite I; now norm_calls|].
      destruct (Launcher.any_mistral items) as [e | [|]];
        [norm_calls; rewrite I; now norm_calls
        | now contradiction T
        | norm_calls; rewrite I; now norm_calls].
Qed.

(** X18: the start of a service never raises an exception: it returns,
    or a signal that arrives while the child is given its grace period
    ends the run through the handler.  It returns True exactly when the
    spawn succeeded, no signal arrived and the child was still running
    after the grace period; a spawn that fails records no process and
    nothing more is called; a spawn that succeeds records the process,
    also when the child has died in the meantime, and it is a process the
    handler stops. *)
Theorem start_service_reports :
  forall c grace w, exists r w',
    start_service c grace w = (r, w')
    /\ (r = inr true \/ r = inr false \/ r = inl (Exit 0))
    /\ (r = inr true <->
        popen_result (sys w) (calls w) c = None /\
        signalled (sys w) (calls w ++ [Popen c (windows (sys w))]) = false /\
        running_result (sys w)
          (calls w ++ [Popen c (windows (sys w)); Sleep grace]) c = true)
    /\ (r = inl (Exit 0) <->
        popen_result (sys w) (calls w) c = None /\
        signalled (sys w) (calls w ++ [Popen c (windows (sys w))]) = true)
    /\ (popen_result (sys w) (calls w) c <> None ->
        w' = mkWorld (sys w) (calls w ++ [Popen c (windows (sys w))]) (self w))
    /\ (r = inr true ->
        w' = mkWorld (sys w) (calls w ++ start_calls (sys w) c grace)
               (with_process c (self w)))
    /\ (r = inl (Exit 0) ->
        w' = handled (mkWorld (sys w)
                        (calls w ++ [Popen c (windows (sys w)); Sleep grace])
                        (with_process c (self w))))
    /\ (popen_result (sys w) (calls w) c = None ->
        process_of c (self w') = true).
Proof.
  intros c grace w.
  assert (forall pre a,
             process_of c (self (handled (mkWorld (sys w) pre
                                            (with_process c a)))) = true) as HP.
  { intros pre a.
    destruct (handled_run (mkWorld (sys w) pre (with_process c a)))
      as [tb [tf [-> _]]].
    now destruct c. }
  assert (forall a, process_of c (with_process c a) = true) as WP
    by (intros a; now destruct c).
  destruct (start_service_cases c grace w)
    as [[e [P E]] | [[P [Sg E]] | [[P [Sg [Q E]]] | [P [Sg [Q E]]]]]];
    rewrite E; eexists; eexists; (split; [reflexivity|]);
    rewrite P;
    repeat match goal with
           | X : signalled _ _ = _ |- _ => rewrite X; clear X
           | X : running_result _ _ _ = _ |- _ => rewrite X; clear X
           end.
  - split; [now right; left|].
    split; [split; [discriminate | intros [? _]; discriminate]|].
    split; [split; [discriminate | intros [? _]; discriminate]|].
    split; [reflexivity|].
    split; [discriminate|]. split; discriminate.
  - split; [now right; right|].
    split; [split; [discriminate | intros [_ [? _]]; discriminate]|].
    split; [now split|].
    split; [intros X; now contradiction X|].
    split; [discriminate|]. split; [reflexivity|]. intros _. apply HP.
  - split; [now left|].
    split; [now split|].
    split; [split; [discriminate | intros [_ ?]; discriminate]|].
    split; [intros X; now contradiction X|].
    split; [reflexivity|]. split; [discriminate|]. intros _. apply WP.
  - split; [now right; left|].
    split; [split; [discriminate | intros [_ [_ ?]]; discriminate]|].
    split; [split; [discriminate | intros [_ ?]; discriminate]|].
    split; [intros X; now contradiction X|].
    split; [discriminate|]. split; [discriminate|]. intros _. apply WP.
Qed.

Lemma spawn_split (A rest before after : list call) (x y : call) :
  forallb not_frontend_spawn A = true ->
  forallb not_frontend_spawn rest = true ->
  not_frontend_spawn y = false ->
  A ++ x :: rest = before ++ y :: after ->
  before = A /\ after = rest.
Proof.
  intros FA FR Hy. revert before.
  induction A as [|a A IH]; intros before E.
  - destruct before as [|b before]; simpl in E.
    + injection E as _ ->. now split.
    + exfalso. injection E as _ ->.
      rewrite forallb_app in FR. simpl in FR. rewrite Hy in FR.
      now rewrite andb_false_r in FR.
  - simpl in FA. apply andb_true_iff in FA. destruct FA as [Fa FA].
    destruct before as [|b before]; simpl in E.
    + exfalso. injection E as -> _. congruence.
    + injection E as -> E. destruct (IH FA before E) as [-> ->]. now split.
Qed.

(** X19: the frontend is spawned only when the backend has answered: in
    every run, however it ends, what comes before a spawn of the frontend
    is the check of the requirements, the start of the backend, at most
    29 probes that failed, each followed by its sleep, and the probe that
    was answered with status 200; and there is no second spawn of the
    frontend. *)
Theorem frontend_spawned_after_ready :
  forall rounds o r w' before flag after,
    run rounds (init o) = (r, w') ->
    calls w' = before ++ Popen frontend flag :: after ->
    (exists checks k,
        forallb asks_only checks = true /\
        before = checks ++ start_calls o backend 3
                        ++ failed_probes k ++ [probe] /\
        (k < 30)%nat /\
        answers_200 o (checks ++ start_calls o backend 3 ++ failed_probes k)
        = true /\
        forall j, (j < k)%nat ->
          answers_200 o (checks ++ start_calls o backend 3 ++ failed_probes j)
          = false)
    /\ forallb not_frontend_spawn after = true.
Proof.
  intros rounds o r w' before flag after R C.
  apply run_ending in R.
  destruct (ending_calls o r w' R)
    as [[Q _] | [checks [k [rest [P0 [[Hk [Ak Bk]] [E FR]]]]]]].
  - exfalso. rewrite C, forallb_app in Q. simpl in Q.
    now rewrite andb_false_r in Q.
  - rewrite E in C.
    assert (forallb not_frontend_spawn (ready_calls o checks k) = true) as FA.
    { unfold ready_calls, start_calls.
      rewrite !forallb_app, failed_probes_quiet, asks_only_quiet by assumption.
      reflexivity. }
    destruct (spawn_split _ rest before after (Popen frontend (windows o))
                (Popen frontend flag) FA FR eq_refl C) as [-> ->].
    split; [|exact FR].
    exists checks, k. split; [exact P0|]. split; [reflexivity|].
    split; [exact Hk|]. split.
    + now rewrite app_assoc.
    + intros j Hj. rewrite app_assoc. now apply Bk.
Qed.

(** X20: when the backend never answers a probe with status 200, the
    frontend is never spawned and the run does not succeed: it returns
    False or raises, or a signal ends it through the handler, with
    status 0. *)
Theorem backend_never_ready :
  forall rounds o r w',
    (forall h, answers_200 o h = false) ->
    run rounds (init o) = (r, w') ->
    (r = inr (Some false) \/ (exists e, r = inl (Raise e)) \/ r = inl (Exit 0))
    /\ forallb not_frontend_spawn (calls w') = true.
Proof.
  intros rounds o r w' H R.
  apply run_ending in R.
  destruct (ending_calls o r w' R)
    as [[Q S] | [checks [k [rest [_ [[_ [Ak _]] _]]]]]].
  - now split.
  - rewrite H in Ak. discriminate.
Qed.


Lemma stops_other (c : child) (k : call) :
  stops c k = true ->
  forall c', child_eqb c c' = false -> stops c' k = false.
Proof.
  destruct k; simpl; try discriminate; destruct c, c0; simpl;
    try discriminate; intros _ [|]; simpl; congruence.
Qed.

Lemma stop_process_run (c : child) (w : world) :
  exists t,
    stop_process c w = (inr tt, mkWorld (sys w) (calls w ++ t) (self w))
    /\ forallb (stops c) t = true.
Proof.
  destruct (stop_process_spec c w) as [rest [E _]].
  destruct (stop_process_emits c w) as [t [_ [C F]]].
  rewrite E in C. simpl in C. apply app_inv_head in C. subst t.
  eexists. split; [exact E | exact F].
Qed.

(** X22: stopping the services never raises and changes nothing but the
    list of calls; every call it makes signals, waits for or kills a
    child whose process is recorded, so that with no process recorded it
    does nothing at all. *)
Theorem stop_services_touches_started :
  forall w, exists t,
    stop_services w = (inr tt, mkWorld (sys w) (calls w ++ t) (self w))
    /\ (forall k, In k t ->
          (stops backend k = true /\ backend_process (self w) = true)
          \/ (stops frontend k = true /\ frontend_process (self w) = true))
    /\ (backend_process (self w) = false ->
        frontend_process (self w) = false -> t = []).
Proof.
  intros w. unfold stop_services, bind at 1 2, get_self.
  destruct (backend_process (self w)) eqn:B.
  - destruct (stop_process_run backend w) as [tb [Eb Fb]].
    unfold bind. rewrite Eb. simpl self.
    rewrite forallb_forall in Fb.
    destruct (frontend_process (self w)) eqn:F.
    + destruct (stop_process_run frontend
                  (mkWorld (sys w) (calls w ++ tb) (self w))) as [tf [Ef Ff]].
      rewrite Ef. simpl. rewrite forallb_forall in Ff.
      exists (tb ++ tf). split; [now rewrite app_assoc|].
      split; [|discriminate].
      intros k Hk. apply in_app_or in Hk. destruct Hk; [left | right]; auto.
    + exists tb. split; [reflexivity|]. split; [|discriminate].
      intros k Hk. left. auto.
  - unfold bind, ret.
    destruct (frontend_process (self w)) eqn:F.
    + destruct (stop_process_run frontend w) as [tf [Ef Ff]].
      rewrite Ef. rewrite forallb_forall in Ff.
      exists tf. split; [reflexivity|]. split; [|discriminate].
      intros k Hk. right. auto.
    + exists []. destruct w; simpl. rewrite app_nil_r.
      split; [reflexivity|]. split; [intros k []|reflexivity].
Qed.

End WithUnicode.

Lemma requirements_fail_locally_witness :
  exists tr,
    @check_requirements basic_latin (init wrong_directory)
    = (inr false, mkWorld wrong_directory ([] ++ tr)
                    (mkAppStarter false false true))
    /\ forallb is_local tr = true.
Proof.
  apply (@requirements_fail_locally basic_latin (init wrong_directory)).
  left. reflexivity.
Defined.

Lemma requirements_decided_witness :
  @check_requirements basic_latin (init calm)
  = (inr true,
     mkWorld calm ([] ++ local_checks ++ [HttpGet OLLAMA_TAGS 3])
       (mkAppStarter false false true)).
Proof.
  apply (proj1 (proj2 (@requirements_decided basic_latin (init calm)
                         eq_refl eq_refl eq_refl))
           (mkResponse 200 (inr tags_with_mistral)));
    reflexivity.
Defined.

Lemma frontend_spawned_after_ready_witness :
  (exists checks k,
      forallb asks_only checks = true /\
      local_checks ++ [HttpGet OLLAMA_TAGS 3]
        ++ start_calls calm backend 3 ++ [probe]
      = checks ++ start_calls calm backend 3 ++ failed_probes k ++ [probe] /\
      (k < 30)%nat /\
      answers_200 calm (checks ++ start_calls calm backend 3 ++ failed_probes k)
      = true /\
      forall j, (j < k)%nat ->
        answers_200 calm (checks ++ start_calls calm backend 3 ++ failed_probes j)
        = false)
  /\ forallb not_frontend_spawn
       [Sleep 4; Poll frontend; Sleep 1;
        Terminate backend; Wait backend (Some 5);
        Terminate frontend; Wait frontend (Some 5)] = true.
Proof.
  apply (@frontend_spawned_after_ready basic_latin 1%nat calm
           (inl (Exit 0))
           (snd (@run basic_latin 1 (init calm)))
           (local_checks ++ [HttpGet OLLAMA_TAGS 3]
              ++ start_calls calm backend 3 ++ [probe])
           false
           [Sleep 4; Poll frontend; Sleep 1;
            Terminate backend; Wait backend (Some 5);
            Terminate frontend; Wait frontend (Some 5)]);
    reflexivity.
Defined.

Lemma backend_never_ready_witness :
  (fst (@run basic_latin 1 (init silent_backend)) = inr (Some false)
   \/ (exists e, fst (@run basic_latin 1 (init silent_backend)) = inl (Raise e))
   \/ fst (@run basic_latin 1 (init silent_backend)) = inl (Exit 0))
  /\ forallb not_frontend_spawn
       (calls (snd (@run basic_latin 1 (init silent_backend)))) = true.
Proof.
  refine (@backend_never_ready basic_latin 1%nat silent_backend
            (fst (@run basic_latin 1 (init silent_backend)))
            (snd (@run basic_latin 1 (init silent_backend))) _ _).
  - intros h. reflexivity.
  - reflexivity.
Defined.


Example silent_backend_run :
  fst (@main basic_latin 1 silent_backend) = inr (Some 1)
  /\ List.length (calls (snd (@main basic_latin 1 silent_backend))) = 69%nat.
Proof. split; reflexivity. Qed.

(** A signal while the backend is given its three seconds: the launcher
    exits with status 0, and the frontend was never spawned. *)
Example hasty_exit :
  fst (@main basic_latin 1 hasty) = inr (Some 0)
  /\ forallb not_frontend_spawn (calls (snd (@main basic_latin 1 hasty)))
     = true.
Proof. split; reflexivity. Qed.

End LauncherMoreProofs.
